(** * Edge routing for customer domains: a shallow embedding

    The repository holds several drafts of two Lambda@Edge handlers:

    - the Resolver/Rewriter: [src/index.mjs] (module [Index]), the cached
      draft with a [transformRequest] helper (module [CachedMapper]) and
      [src/lambda-functions/domain-mapper-edge/index.mjs]
      (module [DomainMapperEdge]);
    - the Origin Finalizer:
      [src/lambda-functions/origin-request-edge/index.mjs]
      (module [OriginRequestEdge]) and the draft that also attaches debug
      information (module [OriginRequestDebug]).

    Each handler is embedded as a Rocq function that follows the JavaScript
    statement by statement.  Calls to [log] and [console.log] only print and
    are left out.  A character of a string stands for the UTF-16 code unit
    of the same number, so strings range over the code points U+0000 to
    U+00FF; host names and paths are ASCII in practice. *)

From Stdlib Require Import ZArith Ascii String List Bool Lia.
From stdpp Require Import base option list gmap strings.

Open Scope string_scope.
Open Scope Z_scope.

(** ** JavaScript string operations used by the handlers *)

Module JsString.

(** The lower-case mapping of the code points up to U+00FF: the letters A
    to Z and the capital letters U+00C0 to U+00DE, of which U+00D7, the
    multiplication sign, is none, move up by 32; every other code point of
    the range is its own lower case. *)
Definition toLowerCase_char (c : ascii) : ascii :=
  let n := nat_of_ascii c in
  if ((65 <=? n)%nat && (n <=? 90)%nat) ||
     ((192 <=? n)%nat && (n <=? 222)%nat && negb (n =? 215)%nat)
  then ascii_of_nat (n + 32) else c.

(** [s.toLowerCase()] *)
Fixpoint toLowerCase (s : string) : string :=
  match s with
  | EmptyString => EmptyString
  | String c s' => String (toLowerCase_char c) (toLowerCase s')
  end.

(** [s.startsWith(p)] *)
Definition startsWith (s p : string) : bool := String.prefix p s.

(** [s.includes(sub)] *)
Fixpoint includes (s sub : string) : bool :=
  String.prefix sub s ||
  match s with
  | EmptyString => false
  | String _ s' => includes s' sub
  end.

(** [s.endsWith(suf)] *)
Fixpoint endsWith (s suf : string) : bool :=
  String.eqb s suf ||
  match s with
  | EmptyString => false
  | String _ s' => endsWith s' suf
  end.

(** [s.split(sep)] for a separator of one character. *)
Fixpoint split (sep : ascii) (s : string) : list string :=
  match s with
  | EmptyString => [EmptyString]
  | String c s' =>
      if Ascii.eqb c sep then EmptyString :: split sep s'
      else match split sep s' with
           | [] => [String c EmptyString]
           | x :: xs => String c x :: xs
           end
  end.

(** A value spliced into a template literal: [undefined] prints as the
    word "undefined". *)
Definition interpolate (v : option string) : string :=
  match v with
  | Some s => s
  | None => "undefined"
  end.

(** Truthiness of a string value: only the empty string is falsy. *)
Definition truthy (s : string) : bool := negb (String.eqb s "").

Definition isDigit (c : ascii) : bool :=
  let n := nat_of_ascii c in (48 <=? n)%nat && (n <=? 57)%nat.

Fixpoint dropPrefix (p s : string) : option string :=
  match p, s with
  | EmptyString, _ => Some s
  | String a p', String b s' => if Ascii.eqb a b then dropPrefix p' s' else None
  | String _ _, EmptyString => None
  end.

(** Whether [s.match(/^\/workspace-\d+/)] is non-null. *)
Definition matchesWorkspace (s : string) : bool :=
  match dropPrefix "/workspace-" s with
  | Some (String c _) => isDigit c
  | _ => false
  end.

Definition hexDigit (n : nat) : ascii :=
  if (n <? 10)%nat then ascii_of_nat (48 + n) else ascii_of_nat (87 + n).

(** The escape [JSON.stringify] writes for one character of a string. *)
Definition jsonEscape (c : ascii) : string :=
  let n := nat_of_ascii c in
  if (n =? 34)%nat then String "\" (String c EmptyString)
  else if (n =? 92)%nat then "\\"
  else if (n =? 8)%nat then "\b"
  else if (n =? 9)%nat then "\t"
  else if (n =? 10)%nat then "\n"
  else if (n =? 12)%nat then "\f"
  else if (n =? 13)%nat then "\r"
  else if (n <? 32)%nat then
    "\u00" +:+ String (hexDigit (n / 16)) (String (hexDigit (n mod 16)) EmptyString)
  else String c EmptyString.

Fixpoint jsonEscapeAll (s : string) : string :=
  match s with
  | EmptyString => EmptyString
  | String c s' => jsonEscape c +:+ jsonEscapeAll s'
  end.

Definition quote : string := String (ascii_of_nat 34) EmptyString.

(** [JSON.stringify(s)] for a string [s]. *)
Definition jsonString (s : string) : string := quote +:+ jsonEscapeAll s +:+ quote.

(** [JSON.stringify(o)] for an object whose properties, in order, are the
    given names with string or [undefined] values; properties whose value
    is [undefined] are left out. *)
Definition jsonMember (kv : string * option string) : option string :=
  match kv with
  | (k, Some v) => Some (jsonString k +:+ ":" +:+ jsonString v)
  | (_, None) => None
  end.

Fixpoint joinComma (l : list string) : string :=
  match l with
  | [] => EmptyString
  | [x] => x
  | x :: xs => x +:+ "," +:+ joinComma xs
  end.

Definition jsonObject (props : list (string * option string)) : string :=
  "{" +:+ joinComma (omap jsonMember props) +:+ "}".

End JsString.

Import JsString.

(** ** The CloudFront request and response shapes *)

Record Header := { key : string; value : string }.

Record CustomOrigin := {
  domainName : string;
  port : Z;
  protocol : string;
  path : string;
  sslProtocols : list string;
  readTimeout : Z;
  keepaliveTimeout : Z;
  customHeaders : gmap string (list Header);
  originProtocolPolicy : string
}.

Inductive Origin :=
| custom (c : CustomOrigin)
| s3 (domain : string).

(** [event.Records[0].cf.request]. *)
Record Request := {
  uri : string;
  method : string;
  querystring : string;
  headers : gmap string (list Header);
  origin : option Origin
}.

(** A response generated at the edge. *)
Record Response := {
  status : string;
  statusDescription : string;
  responseHeaders : gmap string (list Header);
  body : string
}.

(** One entry of [event.Records]; [cf_request] is [None] when [cf] or
    [cf.request] is missing. *)
Record CfRecord := { cf_request : option Request }.

Definition Event := list CfRecord.

(** [event?.Records?.[0]?.cf?.request] *)
Definition eventRequest (event : Event) : option Request :=
  r ← head event; cf_request r.

(** [hs[name]?.[0]?.value] *)
Definition firstValue (hs : gmap string (list Header)) (name : string) : option string :=
  l ← hs !! name; h ← head l; Some (value h).

(** What a handler hands back to CloudFront: the request to forward, or a
    response of its own. *)
Inductive Outcome :=
| Forward (request : Request)
| Respond (response : Response).

Definition set_uri (u : string) (r : Request) : Request :=
  {| uri := u; method := method r; querystring := querystring r;
     headers := headers r; origin := origin r |}.

Definition set_headers (h : gmap string (list Header)) (r : Request) : Request :=
  {| uri := uri r; method := method r; querystring := querystring r;
     headers := h; origin := origin r |}.

Definition set_origin (o : option Origin) (r : Request) : Request :=
  {| uri := uri r; method := method r; querystring := querystring r;
     headers := headers r; origin := o |}.

Definition contentTypePlain : gmap string (list Header) :=
  {[ "content-type" := [ {| key := "Content-Type"; value := "text/plain" |} ] ]}.

Definition internalServerError (text : string) : Response :=
  {| status := "500"; statusDescription := "Internal Server Error";
     responseHeaders := contentTypePlain; body := text |}.

(** The two fixed 500 responses: the one of the [catch (dbError)] block
    and the one of the outer [catch (error)] block. *)
Definition lookupFailed : Response :=
  internalServerError "An error occurred while looking up the domain configuration".

Definition processingFailed : Response :=
  internalServerError "An error occurred processing your request".

Definition newDomain : string := "master.d1ul468muq9dvs.amplifyapp.com".

Definition amplifyOrigin : Origin :=
  custom {| domainName := newDomain; port := 443; protocol := "https";
            path := ""; sslProtocols := ["TLSv1.2"]; readTimeout := 30;
            keepaliveTimeout := 5; customHeaders := ∅;
            originProtocolPolicy := "https-only" |}.

(** ** The lookup store and the per-instance cache *)

(** The attributes of a DynamoDB item that the handlers read:
    [Item.workspaceId?.S] and [Item.status?.S]. *)
Record Item := { workspaceId_S : option string; status_S : option string }.

(** How [dynamoDB.getItem] settles: it resolves with [{ Item }], where
    [Item] may be undefined, or it rejects. *)
Inductive GetItemOutput :=
| resolved (item : option Item)
| rejected (name : string).

(** The client object [dynamoDB]: what a point read of a key returns and
    how many milliseconds the awaited call takes. *)
Record DynamoDB := {
  getItem : string -> GetItemOutput;
  roundTrip : Z
}.

(** A value of the [cache] object: [workspaceId] is a string or [null].
    The object is modelled as a finite map from host names to entries.  A
    host name that happens to name an inherited property of the empty
    object reads as a value without [expiry], which fails the freshness
    test exactly as a missing entry does. *)
Record CacheEntry := { workspaceId : option string; expiry : Z }.

Definition CACHE_TTL : Z := 300000.

(** Effects a handler has on its surroundings, most recent first in the
    trace. *)
Inductive Effect :=
| CacheRead (host : string)
| CacheWrite (host : string) (entry : CacheEntry)
| StoreRead (host : string).

(** The state of one runtime instance: the module-level [cache] object, the
    wall clock read by [Date.now()], and the trace of effects so far. *)
Record World := {
  cache : gmap string CacheEntry;
  now : Z;
  trace : list Effect
}.

Definition elapse (d : Z) (w : World) : World :=
  {| cache := cache w; now := now w + d; trace := trace w |}.

Definition isStoreRead (e : Effect) : bool :=
  match e with StoreRead _ => true | _ => false end.

(** The store lookups recorded in a trace. *)
Definition storeReads (t : list Effect) : list Effect := List.filter isStoreRead t.

(** ** A state and exception monad for handler bodies *)

(** What a [throw] or a rejected promise carries.  None of these values has
    a [status] property, so the test [if (error.status)] of the outer
    [catch] blocks always fails. *)
Inductive Thrown :=
| Error (message : string)
| TypeError
| ReferenceError
| Rejection (name : string).

Inductive Completion (A : Type) :=
| Normal (a : A)
| Throw (e : Thrown).

Arguments Normal {A} a.
Arguments Throw {A} e.

#[export] Instance Completion_ret : MRet Completion := fun A a => Normal a.
#[export] Instance Completion_bind : MBind Completion := fun A B f m =>
  match m with
  | Normal a => f a
  | Throw e => Throw e
  end.

(** [try { m } catch (e) { h e }] without state. *)
Definition tryCatch {A} (m : Completion A) (h : Thrown -> Completion A) : Completion A :=
  match m with
  | Normal a => Normal a
  | Throw e => h e
  end.

Definition Js (A : Type) : Type := World -> Completion A * World.

#[export] Instance Js_ret : MRet Js := fun A a w => (Normal a, w).
#[export] Instance Js_bind : MBind Js := fun A B f m w =>
  match m w with
  | (Normal a, w') => f a w'
  | (Throw e, w') => (Throw e, w')
  end.

Definition throw {A} (e : Thrown) : Js A := fun w => (Throw e, w).

(** [try { m } catch (e) { h e }]: effects made before the throw stay. *)
Definition try_catch {A} (m : Js A) (h : Thrown -> Js A) : Js A := fun w =>
  match m w with
  | (Normal a, w') => (Normal a, w')
  | (Throw e, w') => h e w'
  end.

(** [Date.now()] *)
Definition Date_now : Js Z := fun w => (Normal (now w), w).

(** [cache[host]]: the reads of [cache[host]] that follow one another
    without an [await] in between see the same entry and are recorded as
    one read. *)
Definition cache_get (host : string) : Js (option CacheEntry) := fun w =>
  (Normal (cache w !! host),
   {| cache := cache w; now := now w; trace := CacheRead host :: trace w |}).

(** [cache[host] = entry] *)
Definition cache_set (host : string) (entry : CacheEntry) : Js unit := fun w =>
  (Normal tt,
   {| cache := <[host := entry]> (cache w); now := now w;
      trace := CacheWrite host entry :: trace w |}).

(** [const { Item } = await dynamoDB.getItem(params)] with
    [params.Key.domain.S = host]. *)
Definition await_getItem (dynamoDB : DynamoDB) (host : string) : Js (option Item) := fun w =>
  let w' := {| cache := cache w; now := now w + roundTrip dynamoDB;
               trace := StoreRead host :: trace w |} in
  match getItem dynamoDB host with
  | resolved item => (Normal item, w')
  | rejected name => (Throw (Rejection name), w')
  end.

(** [!Item || !Item.workspaceId?.S || Item.status?.S !== 'active'] yields
    [None]; otherwise the workspace id of the active mapping. *)
Definition activeWorkspace (item : option Item) : option string :=
  match item with
  | None => None
  | Some i =>
      match workspaceId_S i with
      | None => None
      | Some w =>
          if truthy w then
            match status_S i with
            | Some s => if String.eqb s "active" then Some w else None
            | None => None
            end
          else None
      end
  end.

(** [const requestUri = request.uri.startsWith('/') ? request.uri :
    `/${request.uri}`], as written in [transformRequest] and in the
    domain-mapper-edge handler. *)
Definition requestUri (u : string) : string :=
  if startsWith u "/" then u else "/" +:+ u.

(** The first statements of every Resolver/Rewriter draft: validate the
    event, read the host header and lower-case it. *)
Definition validate (event : Event) : Js (Request * string) :=
  match eventRequest event with
  | None => throw (Error "Invalid event structure")
  | Some request =>
      match firstValue (headers request) "host" with
      | None => throw (Error "Missing host header")
      | Some v =>
          if truthy v then mret (request, toLowerCase v)
          else throw (Error "Missing host header")
      end
  end.

(** ** [src/index.mjs]: the cached resolver with the VE.AI shortcut *)

Module Index.

Definition createNotFoundResponse (host : string) : Response :=
  {| status := "404"; statusDescription := "Not Found";
     responseHeaders := contentTypePlain;
     body := "Domain " +:+ host +:+
             " is not configured. Please check your domain settings in the VE.AI dashboard." |}.

(** The cache-or-store branch of [handler] (the [else] of the VE.AI
    test): it either leaves the handler with a response ([inl]) or
    assigns [workspaceId] ([inr]). *)
Definition lookup (dynamoDB : DynamoDB) (host : string) : Js (Outcome + string) :=
  cached ← cache_get host;
  fresh ← match cached with
          | Some entry => t ← Date_now;
                          mret (if expiry entry >? t then Some entry else None)
          | None => mret None
          end;
  match fresh with
  | Some entry =>
      match workspaceId entry with
      | Some w => if truthy w then mret (inr w)
                  else mret (inl (Respond (createNotFoundResponse host)))
      | None => mret (inl (Respond (createNotFoundResponse host)))
      end
  | None =>
      try_catch
        (item ← await_getItem dynamoDB host;
         match activeWorkspace item with
         | None =>
             t ← Date_now;
             cache_set host {| workspaceId := None; expiry := t + CACHE_TTL |};;
             mret (inl (Respond (createNotFoundResponse host)))
         | Some w =>
             t ← Date_now;
             cache_set host {| workspaceId := Some w; expiry := t + CACHE_TTL |};;
             mret (inr w)
         end)
        (fun dbError => mret (inl (Respond lookupFailed)))
  end.

(** The last statements of [handler], logged as "Setting origin": set the
    origin, the host header and the path. *)
Definition setOrigin (request : Request) (workspaceId : string) : Request :=
  let newUri := "/" +:+ workspaceId +:+ uri request in
  set_uri newUri
    (set_headers (<["host" := [ {| key := "Host"; value := newDomain |} ]]> (headers request))
       (set_origin (Some amplifyOrigin) request)).

Definition handler (dynamoDB : DynamoDB) (event : Event) : Js Outcome :=
  try_catch
    ('(request, host) ← validate event;
     if includes host "amplifyapp.com" then mret (Forward request)
     else
       found ← (if endsWith host "ve.ai"
                then mret (inr (interpolate (head (split "." host))))
                else lookup dynamoDB host);
       match found with
       | inl out => mret out
       | inr workspaceId => mret (Forward (setOrigin request workspaceId))
       end)
    (fun error => mret (Respond processingFailed)).

End Index.

(** ** The cached draft with [transformRequest]

    Its handler resolves the workspace as [src/index.mjs] does for custom
    domains and then calls this helper with the request and the resolved
    workspace id. *)

Module CachedMapper.

Definition transformRequest (request : Request) (workspaceId : string) : Request :=
  let requestUri := requestUri (uri request) in
  let newUri :=
    if String.eqb requestUri "/" then "/" +:+ workspaceId +:+ "/"
    else "/" +:+ workspaceId +:+ requestUri in
  set_uri newUri
    (set_headers (<["host" := [ {| key := "Host"; value := newDomain |} ]]> (headers request))
       (set_origin (Some amplifyOrigin) request)).

Definition createNotFoundResponse (host : string) : Response :=
  {| status := "404"; statusDescription := "Not Found";
     responseHeaders := contentTypePlain;
     body := "Domain " +:+ host +:+ " is not configured" |}.

Definition handler (dynamoDB : DynamoDB) (event : Event) : Js Outcome :=
  try_catch
    ('(request, host) ← validate event;
     if includes host "amplifyapp.com" then mret (Forward request)
     else
       cached ← cache_get host;
       fresh ← match cached with
               | Some entry => t ← Date_now;
                               mret (if expiry entry >? t then Some entry else None)
               | None => mret None
               end;
       match fresh with
       | Some entry =>
           match workspaceId entry with
           | Some w => if truthy w then mret (Forward (transformRequest request w))
                       else mret (Respond (createNotFoundResponse host))
           | None => mret (Respond (createNotFoundResponse host))
           end
       | None =>
           try_catch
             (item ← await_getItem dynamoDB host;
              match activeWorkspace item with
              | None =>
                  t ← Date_now;
                  cache_set host {| workspaceId := None; expiry := t + CACHE_TTL |};;
                  mret (Respond (createNotFoundResponse host))
              | Some w =>
                  t ← Date_now;
                  cache_set host {| workspaceId := Some w; expiry := t + CACHE_TTL |};;
                  mret (Forward (transformRequest request w))
              end)
             (fun dbError => mret (Respond lookupFailed))
       end)
    (fun error => mret (Respond processingFailed)).

End CachedMapper.

(** ** The draft that fills the cache without reading it

    The second handler of the same file declares [cache] and writes an
    entry after every store lookup, but has no cache test before the
    lookup. *)

Module WriteOnlyMapper.

Definition requestFailed : Response :=
  internalServerError "An error occurred while processing the request".

Definition validate (event : Event) : Js (Request * string) :=
  match eventRequest event with
  | None => throw (Error "Invalid CloudFront event structure")
  | Some request =>
      match firstValue (headers request) "host" with
      | None => throw (Error "Missing host header")
      | Some v =>
          if truthy v then mret (request, toLowerCase v)
          else throw (Error "Missing host header")
      end
  end.

Definition transformRequest (request : Request) (workspaceId : string) : Request :=
  let requestUri := requestUri (uri request) in
  let newUri := "/" +:+ workspaceId +:+ requestUri in
  set_uri newUri
    (set_headers (<["host" := [ {| key := "Host"; value := newDomain |} ]]> (headers request))
       (set_origin (Some amplifyOrigin) request)).

Definition createNotFoundResponse (host : string) : Response :=
  {| status := "404"; statusDescription := "Not Found";
     responseHeaders := contentTypePlain;
     body := "Domain " +:+ host +:+ " is not configured" |}.

Definition handler (dynamoDB : DynamoDB) (event : Event) : Js Outcome :=
  try_catch
    ('(request, host) ← validate event;
     if includes host "amplifyapp.com" then mret (Forward request)
     else
       try_catch
         (item ← await_getItem dynamoDB host;
          match activeWorkspace item with
          | None =>
              t ← Date_now;
              cache_set host {| workspaceId := None; expiry := t + CACHE_TTL |};;
              mret (Respond (createNotFoundResponse host))
          | Some w =>
              t ← Date_now;
              cache_set host {| workspaceId := Some w; expiry := t + CACHE_TTL |};;
              mret (Forward (transformRequest request w))
          end)
         (fun dbError => mret (Respond lookupFailed)))
    (fun error => mret (Respond requestFailed)).

End WriteOnlyMapper.

(** ** [domain-mapper-edge]: the viewer-request resolver *)

Module DomainMapperEdge.

Definition createNotFoundResponse (host : string) : Response :=
  {| status := "404"; statusDescription := "Not Found";
     responseHeaders := contentTypePlain;
     body := "Domain " +:+ host +:+ " is not configured" |}.

Definition carrier : list Header := [ {| key := "X-Custom-Host"; value := newDomain |} ].

(** The path assigned to [transformedRequest.uri]. *)
Definition transformedUri (uri workspaceId : string) : string :=
  let requestUri := requestUri uri in
  let workspaceMatch := matchesWorkspace requestUri in
  let workspaceNumber := split "-" workspaceId !! 1%nat in
  if workspaceMatch then requestUri
  else "/workspace-" +:+ interpolate workspaceNumber +:+
       (if String.eqb requestUri "/" then "" else requestUri).

(** The statements of [handler] after an active mapping was found: the
    deep copy of the request with its new path, the carrier header and
    the two debug headers. *)
Definition transform (request : Request) (workspaceId : string) : Request :=
  let transformedRequest := request in
  let h1 := <["x-custom-host" := carrier]> (headers transformedRequest) in
  let h2 := <["x-debug-workspace" :=
                [ {| key := "X-Debug-Workspace"; value := workspaceId |} ]]> h1 in
  let h3 := <["x-debug-original-uri" :=
                [ {| key := "X-Debug-Original-Uri"; value := uri request |} ]]> h2 in
  set_headers h3 (set_uri (transformedUri (uri request) workspaceId) transformedRequest).

Definition handler (dynamoDB : DynamoDB) (event : Event) : Js Outcome :=
  try_catch
    ('(request, host) ← validate event;
     if includes host "amplifyapp.com" then mret (Forward request)
     else
       try_catch
         (item ← await_getItem dynamoDB host;
          match activeWorkspace item with
          | None => mret (Respond (createNotFoundResponse host))
          | Some workspaceId => mret (Forward (transform request workspaceId))
          end)
         (fun dbError => mret (Respond lookupFailed)))
    (fun error => mret (Respond processingFailed)).

End DomainMapperEdge.

(** ** [origin-request-edge]: the origin-request finalizer *)

Module OriginRequestEdge.

Definition handler (event : Event) : Completion Outcome :=
  tryCatch
    (request ← match eventRequest event with
               | None => Throw (Error "Invalid event structure")
               | Some r => Normal r
               end;
     match firstValue (headers request) "x-custom-host" with
     | Some customHost =>
         if truthy customHost then
           let h1 := <["host" := [ {| key := "Host"; value := customHost |} ]]>
                       (headers request) in
           mret (Forward (set_headers (delete "x-custom-host" h1) request))
         else mret (Forward request)
     | None => mret (Forward request)
     end)
    (fun error => mret (Respond processingFailed)).

End OriginRequestEdge.

(** ** The finalizer draft that also attaches debug information *)

Module OriginRequestDebug.

(** [JSON.stringify(debugInfo)] *)
Definition debugInfo (hs : gmap string (list Header)) : string :=
  jsonObject [ ("x-debug-workspace", firstValue hs "x-debug-workspace");
               ("x-debug-original-uri", firstValue hs "x-debug-original-uri");
               ("x-debug-transformed-uri", firstValue hs "x-debug-transformed-uri") ].

(** The [catch] block returns [request], a name that is declared inside
    the [try] block only: evaluating it throws, and the handler's promise
    rejects. *)
Definition handler (event : Event) : Completion Outcome :=
  tryCatch
    (request ← match eventRequest event with
               | None => Throw (Error "Invalid event structure")
               | Some r => Normal r
               end;
     hs ← match headers request !! "x-custom-host" with
          | Some l =>
              match head l with
              | Some h =>
                  Normal (delete "x-custom-host"
                            (<["host" := [ {| key := "Host"; value := value h |} ]]>
                               (headers request)))
              | None => Throw TypeError
              end
          | None => Normal (headers request)
          end;
     if endsWith (uri request) "/" || endsWith (uri request) "index.html" then
       mret (Forward (set_headers
                        (<["x-amz-meta-debug" :=
                             [ {| key := "X-Amz-Meta-Debug"; value := debugInfo hs |} ]]> hs)
                        request))
     else mret (Forward (set_headers hs request)))
    (fun error => Throw ReferenceError).

End OriginRequestDebug.

(** ** Sample data *)

Definition hostHeader (h : string) : gmap string (list Header) :=
  {[ "host" := [ {| key := "Host"; value := h |} ] ]}.

Definition sampleRequest (h path : string) : Request :=
  {| uri := path; method := "GET"; querystring := "";
     headers := hostHeader h; origin := None |}.

Definition sampleEvent (r : Request) : Event := [ {| cf_request := Some r |} ].

Definition freshWorld (t : Z) : World := {| cache := ∅; now := t; trace := [] |}.

Definition activeItem (w : string) : Item :=
  {| workspaceId_S := Some w; status_S := Some "active" |}.

Definition pendingItem (w : string) : Item :=
  {| workspaceId_S := Some w; status_S := Some "pending_validation" |}.

(** A request that arrives with a carrier header of the client's making. *)
Definition carrierRequest (h path c : string) : Request :=
  {| uri := path; method := "GET"; querystring := "";
     headers := <["x-custom-host" := [ {| key := "X-Custom-Host"; value := c |} ]]>
                  (hostHeader h);
     origin := None |}.


(** The host names [ÉCOLE.example.com] and [école.example.com]: É is
    U+00C9 and é is U+00E9. *)
Definition capitalEcole : string := String (ascii_of_nat 201) "COLE.example.com".
Definition smallEcole : string := String (ascii_of_nat 233) "cole.example.com".

(** A store holding exactly one record. *)
Definition storeWith (domain : string) (i : Item) (ms : Z) : DynamoDB :=
  {| getItem := fun h => resolved (if String.eqb h domain then Some i else None);
     roundTrip := ms |}.

Definition storeDown (ms : Z) : DynamoDB :=
  {| getItem := fun _ => rejected "TimeoutError"; roundTrip := ms |}.


(** ** Reading handler runs *)

(** The request and the normalised host name an event carries, if any. *)
Definition requestHost (event : Event) : option (Request * string) :=
  request ← eventRequest event;
  v ← firstValue (headers request) "host";
  if truthy v then Some (request, toLowerCase v) else None.

(** The effects a run added when it took the world from [w] to [w']. *)
Definition newEffects (w w' : World) : list Effect :=
  take (length (trace w') - length (trace w)) (trace w').

(** The cache has no usable entry for [host] at the time of [w]. *)
Definition stale (w : World) (host : string) : Prop :=
  match cache w !! host with
  | Some entry => expiry entry <= now w
  | None => True
  end.

(** No hyphen occurs in [s]: [s.split('-')] has a single element. *)
Definition hyphenFree (s : string) : bool := negb (includes s "-").



(** The host name an effect concerns. *)
Definition effectHost (e : Effect) : string :=
  match e with
  | CacheRead h => h
  | CacheWrite h _ => h
  | StoreRead h => h
  end.



(** No cache entry is usable for longer than one TTL from now. *)
Definition boundedStaleness (w : World) : Prop :=
  forall h entry, cache w !! h = Some entry -> expiry entry <= now w + CACHE_TTL.

(** Every positive cache entry holds a non-empty workspace id. *)
Definition positiveEntriesNamed (w : World) : Prop :=
  forall h entry, cache w !! h = Some entry -> workspaceId entry <> Some "".

(** Two requests that differ at most in their host header. *)
Definition sameButHost (r1 r2 : Request) : Prop :=
  uri r1 = uri r2 /\ method r1 = method r2 /\ querystring r1 = querystring r2 /\
  origin r1 = origin r2 /\
  forall k, k <> "host" -> headers r1 !! k = headers r2 !! k.

(** Two outcomes that are the same forwarded request, or two responses
    that agree in everything but the text of their body. *)
Definition sameUpToBody (o1 o2 : Outcome) : Prop :=
  match o1, o2 with
  | Forward r1, Forward r2 => r1 = r2
  | Respond r1, Respond r2 =>
      status r1 = status r2 /\ statusDescription r1 = statusDescription r2 /\
      responseHeaders r1 = responseHeaders r2
  | _, _ => False
  end.

(** The responses a resolver generates itself for an event: the two fixed
    500 responses (the second one given by [failed]) and the 404 response
    made by [notFound] for the event's host. *)
Definition ownResponse (notFound : string -> Response) (failed : Response)
    (ev : Event) (r : Response) : Prop :=
  r = failed \/ r = lookupFailed \/
  exists request host, requestHost ev = Some (request, host) /\ r = notFound host.

(** ** The specification's statements

    Each predicate below reads a sentence of the specification as a property
    of a handler, so that it can be tested against every draft. *)

(** Path rewriting for a resolved workspace [w], on paths that begin with
    [/] as CloudFront delivers them: the root path becomes [/w/], any other
    path [p] becomes [/w] followed by [p], and a path that already begins
    with a workspace segment is left as it is. *)
Definition rewritesAsSpecified (rw : Request -> string -> Request) : Prop :=
  forall request w,
    startsWith (uri request) "/" = true ->
    (matchesWorkspace (uri request) = false ->
     uri (rw request w) =
       if String.eqb (uri request) "/" then "/" +:+ w +:+ "/"
       else "/" +:+ w +:+ uri request) /\
    (matchesWorkspace (uri request) = true ->
     uri (rw request w) = uri request).

(** After a resolution that read the store and forwarded the request, a
    second request for the same host within the TTL window reads the store
    no more: one store lookup in total. *)
Definition servedFromCache (H : DynamoDB -> Event -> Js Outcome) : Prop :=
  forall d1 d2 ev1 ev2 request1 request2 host w out1 w1 dt,
    requestHost ev1 = Some (request1, host) ->
    requestHost ev2 = Some (request2, host) ->
    H d1 ev1 w = (Normal (Forward out1), w1) ->
    In (StoreRead host) (newEffects w w1) ->
    0 <= dt < CACHE_TTL ->
    let w2 := (H d2 ev2 (elapse dt w1)).2 in
    storeReads (newEffects (elapse dt w1) w2) = [] /\
    (length (storeReads (newEffects w w2)) <= 1)%nat /\
    exists out2, (H d2 ev2 (elapse dt w1)).1 = Normal (Forward out2).

(** After a resolution that read the store and found no active mapping, the
    cache holds a negative entry, and a second request for the same host
    within the TTL window reads the store no more and gets the same
    response. *)
Definition negativelyCached (H : DynamoDB -> Event -> Js Outcome) : Prop :=
  forall d1 d2 ev1 ev2 request1 request2 host item w out1 w1 dt,
    requestHost ev1 = Some (request1, host) ->
    requestHost ev2 = Some (request2, host) ->
    getItem d1 host = resolved item ->
    activeWorkspace item = None ->
    H d1 ev1 w = (out1, w1) ->
    In (StoreRead host) (newEffects w w1) ->
    0 <= dt < CACHE_TTL ->
    (exists t, cache w1 !! host = Some {| workspaceId := None; expiry := t |}) /\
    storeReads (newEffects (elapse dt w1) (H d2 ev2 (elapse dt w1)).2) = [] /\
    (H d2 ev2 (elapse dt w1)).1 = out1.

(** [request'] is [request] after the finalizer's substitution and
    deletion for carrier value [c]: the host header carries [c], the
    carrier is gone, and apart from the headers named in [except] nothing
    else differs. *)
Definition finalized (request request' : Request) (c : string) (except : list string) : Prop :=
  firstValue (headers request') "host" = Some c /\
  headers request' !! "x-custom-host" = None /\
  (forall k, k <> "host" -> k <> "x-custom-host" -> ~ In k except ->
             headers request' !! k = headers request !! k) /\
  uri request' = uri request /\ method request' = method request /\
  querystring request' = querystring request /\ origin request' = origin request.


(** Whatever carrier the client sent, a request forwarded by the resolver
    carries none or the resolver's own. *)
Definition carrierNeverInbound (R : DynamoDB -> Event -> Js Outcome) : Prop :=
  forall d ev w request' w',
    R d ev w = (Normal (Forward request'), w') ->
    firstValue (headers request') "x-custom-host" = None \/
    firstValue (headers request') "x-custom-host" = Some newDomain.

(** For every host, a missing record and a record that is not active are
    both answered with the "not configured" response. *)
Definition notConfiguredAlike (H : DynamoDB -> Event -> Js Outcome)
    (notFound : string -> Response) : Prop :=
  forall d1 d2 ev request host item w,
    requestHost ev = Some (request, host) ->
    getItem d1 host = resolved None ->
    getItem d2 host = resolved (Some item) ->
    status_S item <> Some "active" ->
    (H d1 ev w).1 = Normal (Respond (notFound host)) /\
    (H d2 ev w).1 = Normal (Respond (notFound host)).


(** Every host ending in [ve.ai] is routed to the workspace named by its
    first label, without touching cache or store. *)
Definition veaiShortcut (H : DynamoDB -> Event -> Js Outcome) : Prop :=
  forall d ev request host w,
    requestHost ev = Some (request, host) ->
    endsWith host "ve.ai" = true ->
    H d ev w =
      (Normal (Forward (Index.setOrigin request (interpolate (head (split "." host))))), w).

(** ** Running the shared prologue *)

Lemma validate_Some ev request host w :
  requestHost ev = Some (request, host) ->
  validate ev w = (Normal (request, host), w).
Proof.
  unfold requestHost, validate. intros H.
  destruct (eventRequest ev) as [r|]; simpl in H; [|discriminate].
  destruct (firstValue (headers r) "host") as [v|]; simpl in H; [|discriminate].
  destruct (truthy v); [|discriminate].
  by inversion H.
Qed.

Lemma validate_None ev w :
  requestHost ev = None -> exists e, validate ev w = (Throw e, w).
Proof.
  unfold requestHost, validate. intros H.
  destruct (eventRequest ev) as [r|]; simpl in H; [|by eexists].
  destruct (firstValue (headers r) "host") as [v|]; simpl in H; [|by eexists].
  destruct (truthy v); [discriminate | by eexists].
Qed.

(** Unfold the binds of a handler body and run its prologue on an event
    known to carry a request and a host. *)
Ltac run_prologue Hv :=
  unfold try_catch, mbind, Js_bind;
  rewrite (validate_Some _ _ _ _ Hv); simpl.

(** ** Effects added by a run *)

Lemma newEffects_app w w' (pre : list Effect) :
  trace w' = (pre ++ trace w)%list -> newEffects w w' = pre.
Proof.
  intros H. unfold newEffects. rewrite H, length_app.
  replace (List.length pre + List.length (trace w) - List.length (trace w))%nat
    with (List.length pre) by lia.
  by rewrite take_app_length.
Qed.

Lemma newEffects_refl w : newEffects w w = [].
Proof. by apply (newEffects_app w w []). Qed.

Lemma newEffects_1 w c n a :
  newEffects w {| cache := c; now := n; trace := a :: trace w |} = [a].
Proof. by apply (newEffects_app _ _ [a]). Qed.

Lemma newEffects_2 w c n a b :
  newEffects w {| cache := c; now := n; trace := a :: b :: trace w |} = [a; b].
Proof. by apply (newEffects_app _ _ [a; b]). Qed.

Lemma newEffects_3 w c n a b e :
  newEffects w {| cache := c; now := n; trace := a :: b :: e :: trace w |} = [a; b; e].
Proof. by apply (newEffects_app _ _ [a; b; e]). Qed.

Create Rewrite HintDb effects.
#[export] Hint Rewrite newEffects_refl newEffects_1 newEffects_2 newEffects_3 : effects.

(** A run that added no effect did not read the store. *)
Ltac no_store_read H :=
  simpl in H; autorewrite with effects in H;
  repeat (destruct H as [H|H]; [discriminate|]); destruct H.

(** ** The mapping's status *)

Lemma activeWorkspace_truthy item wid :
  activeWorkspace item = Some wid -> truthy wid = true.
Proof.
  unfold activeWorkspace. intros H.
  destruct item as [i|]; [|discriminate].
  destruct (workspaceId_S i) as [x|]; [|discriminate].
  destruct (truthy x) eqn:Ht; [|discriminate].
  destruct (status_S i) as [s|]; [|discriminate].
  destruct (String.eqb s "active"); [|discriminate].
  by inversion H; subst.
Qed.

Lemma activeWorkspace_inactive i :
  status_S i <> Some "active" -> activeWorkspace (Some i) = None.
Proof.
  unfold activeWorkspace. intros H.
  destruct (workspaceId_S i) as [x|]; [|reflexivity].
  destruct (truthy x); [|reflexivity].
  destruct (status_S i) as [s|]; [|reflexivity].
  destruct (String.eqb_spec s "active") as [->|]; [congruence | reflexivity].
Qed.

Lemma stale_dec w host :
  stale w host \/ exists entry, cache w !! host = Some entry /\ now w < expiry entry.
Proof.
  unfold stale. destruct (cache w !! host) as [e|]; [|by left].
  destruct (Z_lt_le_dec (now w) (expiry e)); [right; by exists e | by left].
Qed.

(** ** Running [src/index.mjs] *)

Section IndexRuns.

Variables (d : DynamoDB) (ev : Event) (request : Request) (host : string) (w : World).

Lemma Index_handler_invalid :
  requestHost ev = None ->
  Index.handler d ev w = (Normal (Respond processingFailed), w).
Proof.
  intros Hn. unfold Index.handler, try_catch, mbind, Js_bind.
  destruct (validate_None ev w Hn) as [e ->]. reflexivity.
Qed.

Hypothesis Hv : requestHost ev = Some (request, host).

Lemma Index_handler_amplify :
  includes host "amplifyapp.com" = true ->
  Index.handler d ev w = (Normal (Forward request), w).
Proof. intros Ha. unfold Index.handler. run_prologue Hv. by rewrite Ha. Qed.

Lemma Index_handler_veai :
  includes host "amplifyapp.com" = false ->
  endsWith host "ve.ai" = true ->
  Index.handler d ev w =
    (Normal (Forward (Index.setOrigin request (interpolate (head (split "." host))))), w).
Proof. intros Ha He. unfold Index.handler. run_prologue Hv. by rewrite Ha, He. Qed.

Lemma Index_handler_lookup :
  includes host "amplifyapp.com" = false ->
  endsWith host "ve.ai" = false ->
  Index.handler d ev w =
    match Index.lookup d host w with
    | (Normal (inl out), w') => (Normal out, w')
    | (Normal (inr wid), w') => (Normal (Forward (Index.setOrigin request wid)), w')
    | (Throw _, w') => (Normal (Respond processingFailed), w')
    end.
Proof.
  intros Ha He. unfold Index.handler. run_prologue Hv. rewrite Ha, He.
  destruct (Index.lookup d host w) as [[[out|wid]|e] w']; reflexivity.
Qed.

Lemma Index_lookup_hit entry :
  cache w !! host = Some entry ->
  now w < expiry entry ->
  Index.lookup d host w =
    (Normal match workspaceId entry with
            | Some wid => if truthy wid then inr wid
                          else inl (Respond (Index.createNotFoundResponse host))
            | None => inl (Respond (Index.createNotFoundResponse host))
            end,
     {| cache := cache w; now := now w; trace := CacheRead host :: trace w |}).
Proof.
  intros Hc Hlt. unfold Index.lookup, mbind, Js_bind, cache_get, Date_now. simpl.
  rewrite Hc. simpl.
  replace (expiry entry >? now w) with true
    by (symmetry; rewrite Z.gtb_ltb; apply Z.ltb_lt; lia).
  destruct (workspaceId entry) as [wid|]; [destruct (truthy wid)|]; reflexivity.
Qed.

Lemma Index_lookup_miss :
  stale w host ->
  Index.lookup d host w =
    let t := now w + roundTrip d in
    let tr := StoreRead host :: CacheRead host :: trace w in
    match getItem d host with
    | rejected _ =>
        (Normal (inl (Respond lookupFailed)), {| cache := cache w; now := t; trace := tr |})
    | resolved item =>
        let entry := {| workspaceId := activeWorkspace item; expiry := t + CACHE_TTL |} in
        (Normal match activeWorkspace item with
                | Some wid => inr wid
                | None => inl (Respond (Index.createNotFoundResponse host))
                end,
         {| cache := <[host := entry]> (cache w); now := t;
            trace := CacheWrite host entry :: tr |})
    end.
Proof.
  unfold stale. intros Hs.
  unfold Index.lookup, mbind, Js_bind, cache_get, Date_now, try_catch, await_getItem. simpl.
  destruct (cache w !! host) as [e|] eqn:Hc; simpl.
  - replace (expiry e >? now w) with false
      by (symmetry; rewrite Z.gtb_ltb; apply Z.ltb_ge; lia).
    destruct (getItem d host) as [item|name]; [|reflexivity].
    destruct (activeWorkspace item); reflexivity.
  - destruct (getItem d host) as [item|name]; [|reflexivity].
    destruct (activeWorkspace item); reflexivity.
Qed.

(** A run of [src/index.mjs] that reads the store came past both host
    tests and found no usable cache entry. *)
Lemma Index_handler_reads :
  In (StoreRead host) (newEffects w (Index.handler d ev w).2) ->
  includes host "amplifyapp.com" = false /\ endsWith host "ve.ai" = false /\ stale w host.
Proof.
  intros Hin.
  destruct (includes host "amplifyapp.com") eqn:Ha.
  { rewrite (Index_handler_amplify Ha) in Hin. no_store_read Hin. }
  destruct (endsWith host "ve.ai") eqn:He.
  { rewrite (Index_handler_veai Ha He) in Hin. no_store_read Hin. }
  repeat split. destruct (stale_dec w host) as [Hs|(entry & Hc & Hlt)]; [done|].
  rewrite (Index_handler_lookup Ha He), (Index_lookup_hit _ Hc Hlt) in Hin.
  destruct (workspaceId entry) as [wid|]; [destruct (truthy wid)|]; no_store_read Hin.
Qed.

End IndexRuns.

(** ** Running [domain-mapper-edge] *)

Section DomainMapperEdgeRuns.

Variables (d : DynamoDB) (ev : Event) (request : Request) (host : string) (w : World).

Lemma DME_handler_invalid :
  requestHost ev = None ->
  DomainMapperEdge.handler d ev w = (Normal (Respond processingFailed), w).
Proof.
  intros Hn. unfold DomainMapperEdge.handler, try_catch, mbind, Js_bind.
  destruct (validate_None ev w Hn) as [e ->]. reflexivity.
Qed.

Hypothesis Hv : requestHost ev = Some (request, host).

Lemma DME_handler_amplify :
  includes host "amplifyapp.com" = true ->
  DomainMapperEdge.handler d ev w = (Normal (Forward request), w).
Proof. intros Ha. unfold DomainMapperEdge.handler. run_prologue Hv. by rewrite Ha. Qed.

Lemma DME_handler_lookup :
  includes host "amplifyapp.com" = false ->
  DomainMapperEdge.handler d ev w =
    (Normal match getItem d host with
            | rejected _ => Respond lookupFailed
            | resolved item =>
                match activeWorkspace item with
                | Some wid => Forward (DomainMapperEdge.transform request wid)
                | None => Respond (DomainMapperEdge.createNotFoundResponse host)
                end
            end,
     {| cache := cache w; now := now w + roundTrip d; trace := StoreRead host :: trace w |}).
Proof.
  intros Ha. unfold DomainMapperEdge.handler, await_getItem. run_prologue Hv.
  rewrite Ha. destruct (getItem d host) as [item|name]; [|reflexivity].
  destruct (activeWorkspace item); reflexivity.
Qed.


(** Domain-mapper-edge keeps no cache: every run for a host other than the
    platform's own adds exactly one store lookup and leaves the cache
    alone. *)
Lemma DME_always_reads :
  includes host "amplifyapp.com" = false ->
  newEffects w (DomainMapperEdge.handler d ev w).2 = [StoreRead host] /\
  cache (DomainMapperEdge.handler d ev w).2 = cache w.
Proof.
  intros Ha. rewrite (DME_handler_lookup Ha). simpl. by rewrite newEffects_1.
Qed.

End DomainMapperEdgeRuns.

(** ** The platform's own domain *)

(** C8. When the lower-cased host contains [amplifyapp.com], both
    [src/index.mjs] and domain-mapper-edge hand the request back exactly as
    it came (same path, same headers, same host) and leave the world as it
    was: the cache is untouched and the trace gains no cache access and no
    store lookup. *)
Theorem C8_default_domain_passes_through d ev request host w :
  requestHost ev = Some (request, host) ->
  includes host "amplifyapp.com" = true ->
  Index.handler d ev w = (Normal (Forward request), w) /\
  DomainMapperEdge.handler d ev w = (Normal (Forward request), w).
Proof.
  intros Hv Ha. split.
  - by apply Index_handler_amplify with host.
  - by apply DME_handler_amplify with host.
Qed.

Lemma C8_default_domain_witness :
  let ev := sampleEvent (sampleRequest "Master.D1ul468muq9dvs.AmplifyApp.com" "/index.html") in
  let d := storeDown 5 in
  Index.handler d ev (freshWorld 0) =
    (Normal (Forward (sampleRequest "Master.D1ul468muq9dvs.AmplifyApp.com" "/index.html")),
     freshWorld 0) /\
  DomainMapperEdge.handler d ev (freshWorld 0) =
    (Normal (Forward (sampleRequest "Master.D1ul468muq9dvs.AmplifyApp.com" "/index.html")),
     freshWorld 0).
Proof.
  apply (C8_default_domain_passes_through _ _ _ "master.d1ul468muq9dvs.amplifyapp.com");
    reflexivity.
Defined.

(** ** Absent and inactive mappings *)

(** C7, as worded, fails for a host that contains [amplifyapp.com]: with
    the record missing or present but not active, both resolvers pass the
    request through instead of answering "not configured". *)
Lemma C7_platform_host_is_passed_through :
  ~ notConfiguredAlike Index.handler Index.createNotFoundResponse /\
  ~ notConfiguredAlike DomainMapperEdge.handler DomainMapperEdge.createNotFoundResponse.
Proof.
  split; intros H.
  - destruct (H (storeWith "gallery.example.com" (activeItem "workspace-1") 12)
                (storeWith "app.amplifyapp.com" (pendingItem "workspace-2") 12)
                (sampleEvent (sampleRequest "app.amplifyapp.com" "/dashboard"))
                (sampleRequest "app.amplifyapp.com" "/dashboard")
                "app.amplifyapp.com" (pendingItem "workspace-2") (freshWorld 0)
                eq_refl eq_refl eq_refl) as [H1 _]; [discriminate|].
    vm_compute in H1. discriminate.
  - destruct (H (storeWith "gallery.example.com" (activeItem "workspace-1") 12)
                (storeWith "app.amplifyapp.com" (pendingItem "workspace-2") 12)
                (sampleEvent (sampleRequest "app.amplifyapp.com" "/dashboard"))
                (sampleRequest "app.amplifyapp.com" "/dashboard")
                "app.amplifyapp.com" (pendingItem "workspace-2") (freshWorld 0)
                eq_refl eq_refl eq_refl) as [H1 _]; [discriminate|].
    vm_compute in H1. discriminate.
Qed.

(** C7, amended. For every host, [src/index.mjs] and domain-mapper-edge
    give the same outcome when the record is missing as when it is present
    but not [active].  That outcome is the 404 response naming the host: in
    domain-mapper-edge for every host that does not contain
    [amplifyapp.com]; in [src/index.mjs] for every such host that does not
    end in [ve.ai] and has no fresh cache entry, and there both runs also
    leave a negative cache entry. *)
Theorem C7_not_configured_alike d1 d2 ev request host item w :
  requestHost ev = Some (request, host) ->
  getItem d1 host = resolved None ->
  getItem d2 host = resolved (Some item) ->
  status_S item <> Some "active" ->
  (Index.handler d1 ev w).1 = (Index.handler d2 ev w).1 /\
  (DomainMapperEdge.handler d1 ev w).1 = (DomainMapperEdge.handler d2 ev w).1 /\
  (includes host "amplifyapp.com" = false ->
   (DomainMapperEdge.handler d1 ev w).1 =
     Normal (Respond (DomainMapperEdge.createNotFoundResponse host)) /\
   (DomainMapperEdge.handler d2 ev w).1 =
     Normal (Respond (DomainMapperEdge.createNotFoundResponse host))) /\
  (includes host "amplifyapp.com" = false ->
   endsWith host "ve.ai" = false ->
   stale w host ->
   (Index.handler d1 ev w).1 = Normal (Respond (Index.createNotFoundResponse host)) /\
   (Index.handler d2 ev w).1 = Normal (Respond (Index.createNotFoundResponse host)) /\
   cache (Index.handler d1 ev w).2 !! host =
     Some {| workspaceId := None; expiry := now w + roundTrip d1 + CACHE_TTL |} /\
   cache (Index.handler d2 ev w).2 !! host =
     Some {| workspaceId := None; expiry := now w + roundTrip d2 + CACHE_TTL |}).
Proof.
  intros Hv H1 H2 Hst.
  pose proof (activeWorkspace_inactive item Hst) as Hin.
  split; [|split; [|split]].
  - destruct (includes host "amplifyapp.com") eqn:Ha.
    { by rewrite !(Index_handler_amplify _ _ _ _ _ Hv Ha). }
    destruct (endsWith host "ve.ai") eqn:He.
    { by rewrite !(Index_handler_veai _ _ _ _ _ Hv Ha He). }
    rewrite !(Index_handler_lookup _ _ _ _ _ Hv Ha He).
    destruct (stale_dec w host) as [Hs|(entry & Hc & Hlt)].
    + rewrite !(Index_lookup_miss _ _ _ Hs). simpl. rewrite H1, H2, Hin. reflexivity.
    + by rewrite !(Index_lookup_hit _ _ _ _ Hc Hlt).
  - destruct (includes host "amplifyapp.com") eqn:Ha.
    { by rewrite !(DME_handler_amplify _ _ _ _ _ Hv Ha). }
    rewrite !(DME_handler_lookup _ _ _ _ _ Hv Ha). simpl. by rewrite H1, H2, Hin.
  - intros Ha. rewrite !(DME_handler_lookup _ _ _ _ _ Hv Ha). simpl.
    by rewrite H1, H2, Hin.
  - intros Ha He Hs.
    rewrite !(Index_handler_lookup _ _ _ _ _ Hv Ha He), !(Index_lookup_miss _ _ _ Hs).
    simpl. rewrite H1, H2, Hin. simpl. rewrite !lookup_insert_eq. done.
Qed.

Lemma C7_not_configured_witness :
  let ev := sampleEvent (sampleRequest "unknown.example.com" "/dashboard") in
  let d1 := storeWith "gallery.example.com" (activeItem "workspace-1") 12 in
  let d2 := storeWith "unknown.example.com" (pendingItem "workspace-2") 12 in
  ((DomainMapperEdge.handler d1 ev (freshWorld 0)).1 =
     Normal (Respond (DomainMapperEdge.createNotFoundResponse "unknown.example.com")) /\
   (DomainMapperEdge.handler d2 ev (freshWorld 0)).1 =
     Normal (Respond (DomainMapperEdge.createNotFoundResponse "unknown.example.com"))) /\
  ((Index.handler d1 ev (freshWorld 0)).1 =
     Normal (Respond (Index.createNotFoundResponse "unknown.example.com")) /\
   (Index.handler d2 ev (freshWorld 0)).1 =
     Normal (Respond (Index.createNotFoundResponse "unknown.example.com"))).
Proof.
  intros ev d1 d2.
  destruct (C7_not_configured_alike d1 d2 ev
              (sampleRequest "unknown.example.com" "/dashboard")
              "unknown.example.com" (pendingItem "workspace-2") (freshWorld 0))
    as (_ & _ & H3 & H4).
  - reflexivity.
  - reflexivity.
  - reflexivity.
  - discriminate.
  - split; [exact (H3 eq_refl)|].
    destruct (H4 eq_refl eq_refl I) as (Ha & Hb & _). by split.
Defined.

(** ** Store failures *)

(** C6. In [src/index.mjs], a request whose store lookup is rejected gets
    the fixed 500 response; the run reads the cache and the store and writes
    nothing, so the cache is as before; and any later request for the same
    host that finds the cache in that state reads the store again. *)
Theorem C6_store_failure_not_cached d1 ev request host name w :
  requestHost ev = Some (request, host) ->
  In (StoreRead host) (newEffects w (Index.handler d1 ev w).2) ->
  getItem d1 host = rejected name ->
  (Index.handler d1 ev w).1 = Normal (Respond lookupFailed) /\
  status lookupFailed = "500" /\
  newEffects w (Index.handler d1 ev w).2 = [StoreRead host; CacheRead host] /\
  cache (Index.handler d1 ev w).2 = cache w /\
  forall d2 ev2 request2 w2,
    requestHost ev2 = Some (request2, host) ->
    cache w2 = cache (Index.handler d1 ev w).2 ->
    now w <= now w2 ->
    In (StoreRead host) (newEffects w2 (Index.handler d2 ev2 w2).2).
Proof.
  intros Hv Hr Hrej.
  destruct (Index_handler_reads _ _ _ _ _ Hv Hr) as (Ha & He & Hs).
  rewrite (Index_handler_lookup _ _ _ _ _ Hv Ha He), (Index_lookup_miss _ _ _ Hs).
  simpl. rewrite Hrej. simpl. rewrite newEffects_2.
  repeat split.
  intros d2 ev2 request2 w2 Hv2 Hc Ht.
  assert (stale w2 host) as Hs2.
  { unfold stale in *. rewrite Hc. destruct (cache w !! host); [lia | done]. }
  rewrite (Index_handler_lookup _ _ _ _ _ Hv2 Ha He), (Index_lookup_miss _ _ _ Hs2).
  simpl. destruct (getItem d2 host) as [item|n2]; simpl.
  - destruct (activeWorkspace item); simpl; rewrite newEffects_3; simpl; auto.
  - rewrite newEffects_2. simpl. auto.
Qed.

Lemma C6_store_failure_witness :
  let ev := sampleEvent (sampleRequest "gallery.example.com" "/dashboard") in
  (Index.handler (storeDown 25) ev (freshWorld 1000)).1 = Normal (Respond lookupFailed) /\
  cache (Index.handler (storeDown 25) ev (freshWorld 1000)).2 = ∅ /\
  In (StoreRead "gallery.example.com")
     (newEffects (Index.handler (storeDown 25) ev (freshWorld 1000)).2
        (Index.handler (storeWith "gallery.example.com" (activeItem "workspace-1") 12) ev
           (Index.handler (storeDown 25) ev (freshWorld 1000)).2).2).
Proof.
  intros ev.
  destruct (C6_store_failure_not_cached (storeDown 25) ev
              (sampleRequest "gallery.example.com" "/dashboard")
              "gallery.example.com" "TimeoutError" (freshWorld 1000))
    as (H1 & _ & _ & H4 & H5).
  - reflexivity.
  - vm_compute. auto.
  - reflexivity.
  - split; [exact H1 | split; [exact H4 |]].
    apply (H5 _ ev (sampleRequest "gallery.example.com" "/dashboard")).
    + reflexivity.
    + reflexivity.
    + vm_compute. discriminate.
Defined.

(** ** Positive and negative caching *)

(** C2, as worded, fails on domain-mapper-edge: two requests for
    [gallery.example.com] one second apart make two store lookups. *)
Lemma C2_no_cache_in_domain_mapper_edge : ~ servedFromCache DomainMapperEdge.handler.
Proof.
  intros H.
  pose (d := storeWith "gallery.example.com" (activeItem "workspace-1") 12).
  pose (req := sampleRequest "gallery.example.com" "/dashboard").
  destruct (H d d (sampleEvent req) (sampleEvent req) req req "gallery.example.com"
              (freshWorld 1000) (DomainMapperEdge.transform req "workspace-1")
              {| cache := ∅; now := 1012; trace := [StoreRead "gallery.example.com"] |}
              1000) as (H1 & _).
  - reflexivity.
  - reflexivity.
  - reflexivity.
  - vm_compute. auto.
  - unfold CACHE_TTL. lia.
  - vm_compute in H1. discriminate.
Qed.

(** C2, amended. In [src/index.mjs], after a run that read the store and
    forwarded the request, a second request for the same host less than
    [CACHE_TTL] milliseconds later is answered from the cache: it reads the
    store no more, the two runs together made one store lookup, and both
    are routed to the same workspace.  Domain-mapper-edge has no cache and
    reads the store on every run for a host other than the platform's
    own. *)
Theorem C2_second_resolution_from_cache
    d1 d2 ev1 ev2 request1 request2 host w out1 w1 dt :
  requestHost ev1 = Some (request1, host) ->
  requestHost ev2 = Some (request2, host) ->
  Index.handler d1 ev1 w = (Normal (Forward out1), w1) ->
  In (StoreRead host) (newEffects w w1) ->
  0 <= dt < CACHE_TTL ->
  (storeReads (newEffects (elapse dt w1) (Index.handler d2 ev2 (elapse dt w1)).2) = [] /\
   (List.length (storeReads (newEffects w (Index.handler d2 ev2 (elapse dt w1)).2)) <= 1)%nat /\
   exists wid,
     out1 = Index.setOrigin request1 wid /\
     (Index.handler d2 ev2 (elapse dt w1)).1 = Normal (Forward (Index.setOrigin request2 wid))) /\
  (forall wd, newEffects wd (DomainMapperEdge.handler d2 ev2 wd).2 = [StoreRead host]).
Proof.
  intros Hv1 Hv2 Hrun Hr Hdt.
  assert (Hr' : In (StoreRead host) (newEffects w (Index.handler d1 ev1 w).2))
    by (by rewrite Hrun).
  destruct (Index_handler_reads _ _ _ _ _ Hv1 Hr') as (Ha & He & Hs).
  split; [|intros wd; by apply (DME_always_reads _ _ _ _ _ Hv2 Ha)].
  rewrite (Index_handler_lookup _ _ _ _ _ Hv1 Ha He), (Index_lookup_miss _ _ _ Hs) in Hrun.
  simpl in Hrun.
  destruct (getItem d1 host) as [item|name]; [|discriminate].
  destruct (activeWorkspace item) as [wid|] eqn:Hact; [|discriminate].
  injection Hrun as Hout Hw1.
  set (entry := {| workspaceId := Some wid; expiry := now w + roundTrip d1 + CACHE_TTL |}).
  assert (cache (elapse dt w1) !! host = Some entry) as Hc.
  { rewrite <- Hw1. simpl. apply lookup_insert_eq. }
  assert (now (elapse dt w1) < expiry entry) as Hlt.
  { rewrite <- Hw1. simpl. lia. }
  rewrite (Index_handler_lookup _ _ _ _ _ Hv2 Ha He), (Index_lookup_hit _ _ _ _ Hc Hlt).
  simpl. rewrite (activeWorkspace_truthy _ _ Hact). simpl.
  rewrite (newEffects_app (elapse dt w1) _ [CacheRead host]) by reflexivity.
  split; [reflexivity|]. split.
  - erewrite (newEffects_app w _ [CacheRead host; CacheWrite host entry;
                                  StoreRead host; CacheRead host]).
    + simpl. lia.
    + rewrite <- Hw1. reflexivity.
  - by exists wid.
Qed.

Lemma C2_second_resolution_witness :
  let d := storeWith "gallery.example.com" (activeItem "workspace-1") 12 in
  let ev1 := sampleEvent (sampleRequest "gallery.example.com" "/dashboard") in
  let ev2 := sampleEvent (sampleRequest "Gallery.Example.com" "/static/app.js") in
  let w1 := (Index.handler d ev1 (freshWorld 1000)).2 in
  storeReads (newEffects (elapse 299999 w1) (Index.handler (storeDown 5) ev2 (elapse 299999 w1)).2)
    = [].
Proof.
  intros d ev1 ev2 w1.
  refine (proj1 (proj1 (C2_second_resolution_from_cache d (storeDown 5) ev1 ev2
                   (sampleRequest "gallery.example.com" "/dashboard")
                   (sampleRequest "Gallery.Example.com" "/static/app.js")
                   "gallery.example.com" (freshWorld 1000)
                   (Index.setOrigin (sampleRequest "gallery.example.com" "/dashboard") "workspace-1")
                   w1 299999 _ _ _ _ _))).
  - reflexivity.
  - reflexivity.
  - reflexivity.
  - vm_compute. auto.
  - unfold CACHE_TTL. lia.
Defined.

(** C5, as worded, fails on domain-mapper-edge: after a 404 for
    [unknown.example.com] the cache holds no entry for it. *)
Lemma C5_no_negative_entry_in_domain_mapper_edge :
  ~ negativelyCached DomainMapperEdge.handler.
Proof.
  intros H.
  pose (d := storeWith "gallery.example.com" (activeItem "workspace-1") 12).
  pose (req := sampleRequest "unknown.example.com" "/dashboard").
  destruct (H d d (sampleEvent req) (sampleEvent req) req req "unknown.example.com" None
              (freshWorld 1000)
              (Normal (Respond (DomainMapperEdge.createNotFoundResponse "unknown.example.com")))
              {| cache := ∅; now := 1012; trace := [StoreRead "unknown.example.com"] |}
              1000) as ((t & Ht) & _).
  - reflexivity.
  - reflexivity.
  - reflexivity.
  - reflexivity.
  - reflexivity.
  - vm_compute. auto.
  - unfold CACHE_TTL. lia.
  - vm_compute in Ht. discriminate.
Qed.

(** C5, amended. In [src/index.mjs], a run that read the store and found no
    active mapping answers with the 404 response and leaves a negative
    cache entry that expires [CACHE_TTL] milliseconds after the lookup
    returned; a second request for the same host before that reads the
    store no more and gets the same response.  Domain-mapper-edge writes no
    entry and reads the store again. *)
Theorem C5_negative_entry_suppresses_lookups
    d1 d2 ev1 ev2 request1 request2 host item w out1 w1 dt :
  requestHost ev1 = Some (request1, host) ->
  requestHost ev2 = Some (request2, host) ->
  getItem d1 host = resolved item ->
  activeWorkspace item = None ->
  Index.handler d1 ev1 w = (out1, w1) ->
  In (StoreRead host) (newEffects w w1) ->
  0 <= dt < CACHE_TTL ->
  (out1 = Normal (Respond (Index.createNotFoundResponse host)) /\
   cache w1 !! host =
     Some {| workspaceId := None; expiry := now w + roundTrip d1 + CACHE_TTL |} /\
   storeReads (newEffects (elapse dt w1) (Index.handler d2 ev2 (elapse dt w1)).2) = [] /\
   (Index.handler d2 ev2 (elapse dt w1)).1 = out1) /\
  (forall wd,
     cache (DomainMapperEdge.handler d1 ev1 wd).2 = cache wd /\
     newEffects wd (DomainMapperEdge.handler d2 ev2 wd).2 = [StoreRead host]).
Proof.
  intros Hv1 Hv2 Hget Hact Hrun Hr Hdt.
  assert (Hr' : In (StoreRead host) (newEffects w (Index.handler d1 ev1 w).2))
    by (by rewrite Hrun).
  destruct (Index_handler_reads _ _ _ _ _ Hv1 Hr') as (Ha & He & Hs).
  split.
  2:{ intros wd. split.
      - apply (DME_always_reads _ _ _ _ _ Hv1 Ha).
      - apply (DME_always_reads _ _ _ _ _ Hv2 Ha). }
  rewrite (Index_handler_lookup _ _ _ _ _ Hv1 Ha He), (Index_lookup_miss _ _ _ Hs) in Hrun.
  simpl in Hrun. rewrite Hget, Hact in Hrun.
  injection Hrun as Hout Hw1.
  set (entry := {| workspaceId := None; expiry := now w + roundTrip d1 + CACHE_TTL |}).
  assert (cache (elapse dt w1) !! host = Some entry) as Hc.
  { rewrite <- Hw1. simpl. apply lookup_insert_eq. }
  assert (now (elapse dt w1) < expiry entry) as Hlt.
  { rewrite <- Hw1. simpl. lia. }
  rewrite (Index_handler_lookup _ _ _ _ _ Hv2 Ha He), (Index_lookup_hit _ _ _ _ Hc Hlt).
  simpl. rewrite (newEffects_app (elapse dt w1) _ [CacheRead host]) by reflexivity.
  subst out1. repeat split.
  rewrite <- Hw1. simpl. apply lookup_insert_eq.
Qed.

Lemma C5_negative_entry_witness :
  let d := storeWith "gallery.example.com" (activeItem "workspace-1") 12 in
  let ev := sampleEvent (sampleRequest "unknown.example.com" "/dashboard") in
  let r1 := Index.handler d ev (freshWorld 1000) in
  (Index.handler (storeDown 5) ev (elapse 1000 r1.2)).1 = r1.1.
Proof.
  intros d ev r1.
  refine (proj2 (proj2 (proj2 (proj1
            (C5_negative_entry_suppresses_lookups d (storeDown 5) ev ev
               (sampleRequest "unknown.example.com" "/dashboard")
               (sampleRequest "unknown.example.com" "/dashboard")
               "unknown.example.com" None (freshWorld 1000) r1.1 r1.2 1000
               _ _ _ _ _ _ _))))).
  - reflexivity.
  - reflexivity.
  - reflexivity.
  - reflexivity.
  - reflexivity.
  - vm_compute. auto.
  - unfold CACHE_TTL. lia.
Defined.

(** ** Splitting workspace ids and host names *)

Lemma includes_cons c s sub :
  includes (String c s) sub = false -> includes s sub = false.
Proof. simpl. intros H. by apply orb_false_elim in H as [_ H]. Qed.

Lemma includes_char_head c s :
  includes (String c s) (String c "") = true.
Proof.
  simpl. destruct (ascii_dec c c) as [_|Hn]; [|by destruct Hn].
  by destruct s.
Qed.

Lemma includes_char_neq c a s :
  includes (String c s) (String a "") = false -> Ascii.eqb c a = false.
Proof.
  intros H. destruct (Ascii.eqb_spec c a) as [->|]; [|done].
  by rewrite includes_char_head in H.
Qed.

(** Without the separator in it, a string splits into itself. *)
Lemma split_absent sep s :
  includes s (String sep "") = false -> split sep s = [s].
Proof.
  induction s as [|c s IH]; intros H; [reflexivity|].
  simpl. rewrite (includes_char_neq _ _ _ H), (IH (includes_cons _ _ _ H)). reflexivity.
Qed.


Lemma split_workspace_number n :
  hyphenFree n = true -> split "-" ("workspace-" +:+ n) !! 1%nat = Some n.
Proof.
  unfold hyphenFree. intros H. apply negb_true_iff in H.
  simpl. change ("" +:+ n) with n. by rewrite (split_absent "-" n H).
Qed.

(** The first element of a split is the text before the first separator. *)
Lemma split_head sep s :
  exists label,
    head (split sep s) = Some label /\
    includes label (String sep "") = false /\
    (s = label \/ exists rest, s = label +:+ String sep rest).
Proof.
  induction s as [|c s (label & Hh & Hl & Hs)].
  - exists "". split; [done|]. split; [done|]. by left.
  - simpl. destruct (Ascii.eqb_spec c sep) as [->|Hne].
    + exists "". split; [done|]. split; [done|]. right. by exists s.
    + destruct (split sep s) as [|x xs]; [discriminate|].
      simpl in Hh. injection Hh as ->.
      exists (String c label). split; [done|]. split.
      * simpl. rewrite Hl. destruct (ascii_dec sep c) as [->|]; [by destruct Hne | done].
      * destruct Hs as [->|(rest & ->)]; [by left | right; by exists rest].
Qed.

Lemma includes_step c s sub : includes s sub = true -> includes (String c s) sub = true.
Proof. simpl. intros ->. apply orb_true_r. Qed.

Lemma endsWith_veai_has_dot s : endsWith s "ve.ai" = true -> includes s "." = true.
Proof.
  induction s as [|c s IH]; [discriminate|].
  intros H. change (String.eqb (String c s) "ve.ai" || endsWith s "ve.ai" = true) in H.
  apply orb_true_iff in H as [H|H].
  - apply String.eqb_eq in H. rewrite H. reflexivity.
  - apply includes_step. by apply IH.
Qed.

Lemma prefix_append p s : String.prefix p (p +:+ s) = true.
Proof.
  induction p as [|c p IH]; simpl; [by destruct s|].
  destruct (ascii_dec c c) as [_|Hn]; [exact IH | by destruct Hn].
Qed.

(** ** Path rewriting *)

Lemma requestUri_slash u : startsWith u "/" = true -> requestUri u = u.
Proof. unfold requestUri. by intros ->. Qed.

Lemma append_empty_r s : s +:+ "" = s.
Proof.
  induction s as [|c s IH]; [reflexivity|].
  change (String c (s +:+ "") = String c s). by rewrite IH.
Qed.

Lemma DME_transform_uri request w :
  uri (DomainMapperEdge.transform request w) =
    if matchesWorkspace (requestUri (uri request)) then requestUri (uri request)
    else "/workspace-" +:+ interpolate (split "-" w !! 1%nat) +:+
         (if String.eqb (requestUri (uri request)) "/" then ""
          else requestUri (uri request)).
Proof. reflexivity. Qed.

(** C1, as worded, fails on both drafts it is drawn from:
    domain-mapper-edge maps the root path to [/workspace-1] with no
    trailing separator, and [transformRequest] prefixes a path that already
    begins with a workspace segment. *)
Lemma C1_rewrite_differs :
  ~ rewritesAsSpecified DomainMapperEdge.transform /\
  ~ rewritesAsSpecified CachedMapper.transformRequest.
Proof.
  split; intros H.
  - destruct (H (sampleRequest "gallery.example.com" "/") "workspace-1" eq_refl) as [H1 _].
    specialize (H1 eq_refl). vm_compute in H1. discriminate.
  - destruct (H (sampleRequest "gallery.example.com" "/workspace-1/dashboard")
                "workspace-1" eq_refl) as [_ H2].
    specialize (H2 eq_refl). vm_compute in H2. discriminate.
Qed.

(** C1, amended. For a path beginning with [/]:
    [transformRequest] rewrites every path [p] to [/w] followed by [p], so
    the root path becomes [/w/], and it exempts no path;
    domain-mapper-edge leaves a path beginning with [/workspace-<digits>]
    as it is and, for a workspace id [w] of the form [workspace-<n>],
    rewrites the root path to [/w] and any other path [p] to [/w] followed
    by [p]. *)
Theorem C1_path_rewriting request w :
  startsWith (uri request) "/" = true ->
  uri (CachedMapper.transformRequest request w) = "/" +:+ w +:+ uri request /\
  (uri request = "/" -> uri (CachedMapper.transformRequest request w) = "/" +:+ w +:+ "/") /\
  (matchesWorkspace (uri request) = true ->
   uri (DomainMapperEdge.transform request w) = uri request) /\
  (forall n, w = "workspace-" +:+ n -> hyphenFree n = true ->
     (uri request = "/" -> uri (DomainMapperEdge.transform request w) = "/" +:+ w) /\
     (uri request <> "/" -> matchesWorkspace (uri request) = false ->
      uri (DomainMapperEdge.transform request w) = "/" +:+ w +:+ uri request)).
Proof.
  intros Hs. pose proof (requestUri_slash _ Hs) as Hu.
  assert (uri (CachedMapper.transformRequest request w) = "/" +:+ w +:+ uri request) as Ht.
  { unfold CachedMapper.transformRequest. simpl. rewrite Hu.
    destruct (String.eqb_spec (uri request) "/") as [->|]; reflexivity. }
  split; [exact Ht|]. split; [by intros Hr; rewrite Ht, Hr|]. split.
  - intros Hm. by rewrite DME_transform_uri, Hu, Hm.
  - intros n -> Hn. split.
    + intros Hr. rewrite DME_transform_uri, Hu, Hr, (split_workspace_number n Hn).
      change ("/" +:+ "workspace-" +:+ n) with ("/workspace-" +:+ n).
      change ("/workspace-" +:+ n +:+ "" = "/workspace-" +:+ n).
      f_equal. apply append_empty_r.
    + intros Hr Hm. rewrite DME_transform_uri, Hu, Hm, (split_workspace_number n Hn).
      destruct (String.eqb_spec (uri request) "/") as [|_]; [done | reflexivity].
Qed.

Lemma C1_path_rewriting_witness :
  uri (CachedMapper.transformRequest (sampleRequest "gallery.example.com" "/static/app.js")
         "workspace-1") = "/workspace-1/static/app.js" /\
  uri (DomainMapperEdge.transform (sampleRequest "gallery.example.com" "/static/app.js")
         "workspace-1") = "/workspace-1/static/app.js".
Proof.
  destruct (C1_path_rewriting (sampleRequest "gallery.example.com" "/static/app.js")
              "workspace-1" eq_refl) as (H1 & _ & _ & H4).
  split; [exact H1|].
  destruct (H4 "1" eq_refl eq_refl) as [_ H5].
  apply H5; [discriminate | reflexivity].
Defined.




(** ** The VE.AI shortcut *)

(** C10, as worded, fails for a host that ends in [ve.ai] and also
    contains [amplifyapp.com]: the earlier test passes it through. *)
Lemma C10_amplify_test_comes_first : ~ veaiShortcut Index.handler.
Proof.
  intros H.
  specialize (H (storeDown 5)
                (sampleEvent (sampleRequest "amplifyapp.com.ve.ai" "/dashboard"))
                (sampleRequest "amplifyapp.com.ve.ai" "/dashboard")
                "amplifyapp.com.ve.ai" (freshWorld 0) eq_refl eq_refl).
  vm_compute in H. discriminate.
Qed.

(** C10, amended. In [src/index.mjs], for a host that ends in [ve.ai] and
    does not contain [amplifyapp.com], the workspace id is the text before
    the host's first dot, and the request is forwarded with that id
    prefixed to its path, whatever the store and the cache hold: the world,
    trace included, is as before. *)
Theorem C10_veai_shortcut d ev request host w :
  requestHost ev = Some (request, host) ->
  endsWith host "ve.ai" = true ->
  includes host "amplifyapp.com" = false ->
  exists label rest,
    host = label +:+ "." +:+ rest /\
    includes label "." = false /\
    Index.handler d ev w = (Normal (Forward (Index.setOrigin request label)), w) /\
    uri (Index.setOrigin request label) = "/" +:+ label +:+ uri request.
Proof.
  intros Hv He Ha.
  destruct (split_head "." host) as (label & Hh & Hl & Hs).
  destruct Hs as [->|(rest & Hs)].
  { rewrite (endsWith_veai_has_dot _ He) in Hl. discriminate. }
  exists label, rest. split; [exact Hs|]. split; [exact Hl|]. split; [|reflexivity].
  rewrite (Index_handler_veai _ _ _ _ _ Hv Ha He), Hh. reflexivity.
Qed.

Lemma C10_veai_shortcut_witness :
  exists label rest,
    "workspace-1.ve.ai" = label +:+ "." +:+ rest /\
    includes label "." = false /\
    Index.handler (storeDown 5)
      (sampleEvent (sampleRequest "Workspace-1.VE.AI" "/dashboard")) (freshWorld 0) =
      (Normal (Forward (Index.setOrigin (sampleRequest "Workspace-1.VE.AI" "/dashboard") label)),
       freshWorld 0) /\
    uri (Index.setOrigin (sampleRequest "Workspace-1.VE.AI" "/dashboard") label) =
      "/" +:+ label +:+ "/dashboard".
Proof.
  apply (C10_veai_shortcut (storeDown 5)
           (sampleEvent (sampleRequest "Workspace-1.VE.AI" "/dashboard"))
           (sampleRequest "Workspace-1.VE.AI" "/dashboard") "workspace-1.ve.ai" (freshWorld 0));
    reflexivity.
Defined.

(** ** The origin finalizer *)


Lemma finalized_substitution hs request c :
  hs = delete "x-custom-host"
         (<["host" := [ {| key := "Host"; value := c |} ]]> (headers request)) ->
  finalized request (set_headers hs request) c [].
Proof.
  intros ->. unfold finalized, firstValue. simpl.
  rewrite lookup_delete_ne by done. rewrite lookup_insert_eq, lookup_delete_eq.
  repeat split. intros k Hk1 Hk2 _.
  rewrite lookup_delete_ne by done. by rewrite lookup_insert_ne.
Qed.


(** Origin-request-edge on a carrier with a non-empty value. *)
Lemma ORE_handler_carrier request c :
  firstValue (headers request) "x-custom-host" = Some c ->
  truthy c = true ->
  exists request',
    OriginRequestEdge.handler [ {| cf_request := Some request |} ]
      = Normal (Forward request') /\
    finalized request request' c [].
Proof.
  intros Hc Ht. unfold OriginRequestEdge.handler, tryCatch. simpl.
  rewrite Hc, Ht. simpl. eexists. split; [reflexivity|].
  by apply finalized_substitution.
Qed.




(** ** The carrier header across both stages *)

(** C4, as worded, fails on domain-mapper-edge: a request for a host that
    contains [amplifyapp.com] is passed through with the carrier the client
    sent, and origin-request-edge then makes that value the host header. *)
Lemma C4_client_carrier_survives_pass_through :
  ~ carrierNeverInbound DomainMapperEdge.handler /\
  (let inbound := carrierRequest "app.amplifyapp.com" "/" "evil.example.com" in
   DomainMapperEdge.handler (storeDown 5) (sampleEvent inbound) (freshWorld 0)
     = (Normal (Forward inbound), freshWorld 0) /\
   exists request',
     OriginRequestEdge.handler (sampleEvent inbound) = Normal (Forward request') /\
     firstValue (headers request') "host" = Some "evil.example.com").
Proof.
  split.
  - intros H.
    destruct (H (storeDown 5)
                (sampleEvent (carrierRequest "app.amplifyapp.com" "/" "evil.example.com"))
                (freshWorld 0)
                (carrierRequest "app.amplifyapp.com" "/" "evil.example.com")
                (freshWorld 0) eq_refl) as [Hc|Hc];
      vm_compute in Hc; discriminate.
  - split; [reflexivity|]. eexists. split; reflexivity.
Qed.

(** C4, amended. In domain-mapper-edge, a request that is forwarded for a
    host other than the platform's own carries the resolver's carrier, and
    nothing of what the client sent under that name; origin-request-edge
    then sets the host header to the fixed origin host and removes the
    carrier.  A request for a host containing [amplifyapp.com] is passed
    through with its headers as they came; if it carries a non-empty
    carrier, origin-request-edge makes that value the host header. *)
Theorem C4_carrier_overwritten_when_mapped d ev request host w :
  requestHost ev = Some (request, host) ->
  (includes host "amplifyapp.com" = false ->
   forall request',
     (DomainMapperEdge.handler d ev w).1 = Normal (Forward request') ->
     headers request' !! "x-custom-host" = Some DomainMapperEdge.carrier /\
     exists request'',
       OriginRequestEdge.handler [ {| cf_request := Some request' |} ]
         = Normal (Forward request'') /\
       finalized request' request'' newDomain []) /\
  (includes host "amplifyapp.com" = true ->
   (DomainMapperEdge.handler d ev w).1 = Normal (Forward request) /\
   forall c, firstValue (headers request) "x-custom-host" = Some c -> truthy c = true ->
     exists request'',
       OriginRequestEdge.handler [ {| cf_request := Some request |} ]
         = Normal (Forward request'') /\
       finalized request request'' c []).
Proof.
  intros Hv. split.
  - intros Ha request' Hrun.
    rewrite (DME_handler_lookup _ _ _ _ _ Hv Ha) in Hrun. simpl in Hrun.
    destruct (getItem d host) as [item|name]; [|discriminate].
    destruct (activeWorkspace item) as [wid|]; [|discriminate].
    injection Hrun as <-.
    assert (headers (DomainMapperEdge.transform request wid) !! "x-custom-host"
            = Some DomainMapperEdge.carrier) as Hc.
    { unfold DomainMapperEdge.transform. simpl.
      rewrite !lookup_insert_ne by done. apply lookup_insert_eq. }
    split; [exact Hc|].
    apply ORE_handler_carrier; [|reflexivity].
    unfold firstValue. by rewrite Hc.
  - intros Ha. rewrite (DME_handler_amplify _ _ _ _ _ Hv Ha). split; [reflexivity|].
    intros c Hc Ht.
    by apply ORE_handler_carrier.
Qed.

Lemma C4_carrier_overwritten_witness :
  let inbound := carrierRequest "Gallery.Example.com" "/dashboard" "evil.example.com" in
  let d := storeWith "gallery.example.com" (activeItem "workspace-1") 12 in
  (DomainMapperEdge.handler d (sampleEvent inbound) (freshWorld 0)).1
    = Normal (Forward (DomainMapperEdge.transform inbound "workspace-1")) /\
  headers (DomainMapperEdge.transform inbound "workspace-1") !! "x-custom-host"
    = Some DomainMapperEdge.carrier.
Proof.
  intros inbound d. split; [reflexivity|].
  destruct (C4_carrier_overwritten_when_mapped d (sampleEvent inbound) inbound
              "gallery.example.com" (freshWorld 0) eq_refl) as [H1 _].
  destruct (H1 eq_refl (DomainMapperEdge.transform inbound "workspace-1") eq_refl)
    as [Hc _].
  exact Hc.
Defined.

(** * Further properties of the handlers *)

(** ** Running the cached draft *)

Section CachedMapperRuns.

Variables (d : DynamoDB) (ev : Event) (request : Request) (host : string) (w : World).

Lemma CM_handler_invalid :
  requestHost ev = None ->
  CachedMapper.handler d ev w = (Normal (Respond processingFailed), w).
Proof.
  intros Hn. unfold CachedMapper.handler, try_catch, mbind, Js_bind.
  destruct (validate_None ev w Hn) as [e ->]. reflexivity.
Qed.

Hypothesis Hv : requestHost ev = Some (request, host).

Lemma CM_handler_amplify :
  includes host "amplifyapp.com" = true ->
  CachedMapper.handler d ev w = (Normal (Forward request), w).
Proof. intros Ha. unfold CachedMapper.handler. run_prologue Hv. by rewrite Ha. Qed.

Lemma CM_handler_hit entry :
  includes host "amplifyapp.com" = false ->
  cache w !! host = Some entry ->
  now w < expiry entry ->
  CachedMapper.handler d ev w =
    (Normal match workspaceId entry with
            | Some wid =>
                if truthy wid then Forward (CachedMapper.transformRequest request wid)
                else Respond (CachedMapper.createNotFoundResponse host)
            | None => Respond (CachedMapper.createNotFoundResponse host)
            end,
     {| cache := cache w; now := now w; trace := CacheRead host :: trace w |}).
Proof.
  intros Ha Hc Hlt. unfold CachedMapper.handler, cache_get, Date_now. run_prologue Hv.
  rewrite Ha, Hc. simpl.
  replace (expiry entry >? now w) with true
    by (symmetry; rewrite Z.gtb_ltb; apply Z.ltb_lt; lia).
  destruct (workspaceId entry) as [wid|]; [destruct (truthy wid)|]; reflexivity.
Qed.

Lemma CM_handler_miss :
  includes host "amplifyapp.com" = false ->
  stale w host ->
  CachedMapper.handler d ev w =
    let t := now w + roundTrip d in
    let tr := StoreRead host :: CacheRead host :: trace w in
    match getItem d host with
    | rejected _ =>
        (Normal (Respond lookupFailed), {| cache := cache w; now := t; trace := tr |})
    | resolved item =>
        let entry := {| workspaceId := activeWorkspace item; expiry := t + CACHE_TTL |} in
        (Normal match activeWorkspace item with
                | Some wid => Forward (CachedMapper.transformRequest request wid)
                | None => Respond (CachedMapper.createNotFoundResponse host)
                end,
         {| cache := <[host := entry]> (cache w); now := t;
            trace := CacheWrite host entry :: tr |})
    end.
Proof.
  unfold stale. intros Ha Hs.
  unfold CachedMapper.handler, cache_get, Date_now, await_getItem. run_prologue Hv.
  rewrite Ha. destruct (cache w !! host) as [e|] eqn:Hc; simpl.
  - replace (expiry e >? now w) with false
      by (symmetry; rewrite Z.gtb_ltb; apply Z.ltb_ge; lia).
    destruct (getItem d host) as [item|name]; [|reflexivity].
    destruct (activeWorkspace item); reflexivity.
  - destruct (getItem d host) as [item|name]; [|reflexivity].
    destruct (activeWorkspace item); reflexivity.
Qed.

Lemma CM_handler_reads :
  In (StoreRead host) (newEffects w (CachedMapper.handler d ev w).2) ->
  includes host "amplifyapp.com" = false /\ stale w host.
Proof.
  intros Hin.
  destruct (includes host "amplifyapp.com") eqn:Ha.
  { rewrite (CM_handler_amplify Ha) in Hin. no_store_read Hin. }
  split; [done|]. destruct (stale_dec w host) as [Hs|(entry & Hc & Hlt)]; [done|].
  rewrite (CM_handler_hit _ Ha Hc Hlt) in Hin.
  destruct (workspaceId entry) as [wid|]; [destruct (truthy wid)|]; no_store_read Hin.
Qed.

End CachedMapperRuns.

(** ** Running the draft with the unread cache *)

Section WriteOnlyMapperRuns.

Variables (d : DynamoDB) (ev : Event) (request : Request) (host : string) (w : World).

Lemma WO_handler_invalid :
  requestHost ev = None ->
  WriteOnlyMapper.handler d ev w = (Normal (Respond WriteOnlyMapper.requestFailed), w).
Proof.
  unfold requestHost, WriteOnlyMapper.handler, WriteOnlyMapper.validate,
    try_catch, mbind, Js_bind. intros H.
  destruct (eventRequest ev) as [r|]; simpl in *; [|reflexivity].
  destruct (firstValue (headers r) "host") as [v|]; simpl in *; [|reflexivity].
  destruct (truthy v); [discriminate | reflexivity].
Qed.

Hypothesis Hv : requestHost ev = Some (request, host).

Lemma WO_validate_Some : WriteOnlyMapper.validate ev w = (Normal (request, host), w).
Proof.
  revert Hv. unfold requestHost, WriteOnlyMapper.validate. intros H.
  destruct (eventRequest ev) as [r|]; simpl in H; [|discriminate].
  destruct (firstValue (headers r) "host") as [v|]; simpl in H; [|discriminate].
  destruct (truthy v); [|discriminate].
  by inversion H.
Qed.

Lemma WO_handler_amplify :
  includes host "amplifyapp.com" = true ->
  WriteOnlyMapper.handler d ev w = (Normal (Forward request), w).
Proof.
  intros Ha. unfold WriteOnlyMapper.handler, try_catch, mbind, Js_bind.
  rewrite WO_validate_Some. simpl. by rewrite Ha.
Qed.

Lemma WO_handler_lookup :
  includes host "amplifyapp.com" = false ->
  WriteOnlyMapper.handler d ev w =
    let t := now w + roundTrip d in
    match getItem d host with
    | rejected _ =>
        (Normal (Respond lookupFailed),
         {| cache := cache w; now := t; trace := StoreRead host :: trace w |})
    | resolved item =>
        let entry := {| workspaceId := activeWorkspace item; expiry := t + CACHE_TTL |} in
        (Normal match activeWorkspace item with
                | Some wid => Forward (WriteOnlyMapper.transformRequest request wid)
                | None => Respond (WriteOnlyMapper.createNotFoundResponse host)
                end,
         {| cache := <[host := entry]> (cache w); now := t;
            trace := CacheWrite host entry :: StoreRead host :: trace w |})
    end.
Proof.
  intros Ha.
  unfold WriteOnlyMapper.handler, try_catch, mbind, Js_bind, await_getItem.
  rewrite WO_validate_Some. simpl. rewrite Ha.
  destruct (getItem d host) as [item|name]; [|reflexivity].
  destruct (activeWorkspace item); reflexivity.
Qed.

End WriteOnlyMapperRuns.

(** ** Malformed events and the handlers' own responses *)

(** X1. An event without a request, or whose request has no host header, an
    empty host array or an empty host value, is answered by every resolver
    draft with its fixed 500 response of the outer [catch] block, before
    any cache access or store lookup: the world is left as it was. *)
Theorem X1_malformed_request d ev w :
  requestHost ev = None ->
  Index.handler d ev w = (Normal (Respond processingFailed), w) /\
  CachedMapper.handler d ev w = (Normal (Respond processingFailed), w) /\
  DomainMapperEdge.handler d ev w = (Normal (Respond processingFailed), w) /\
  WriteOnlyMapper.handler d ev w = (Normal (Respond WriteOnlyMapper.requestFailed), w).
Proof.
  intros Hn. repeat split.
  - by apply Index_handler_invalid.
  - by apply CM_handler_invalid.
  - by apply DME_handler_invalid.
  - by apply WO_handler_invalid.
Qed.

Lemma X1_malformed_request_witness :
  Index.handler (storeDown 5) (sampleEvent (sampleRequest "" "/dashboard")) (freshWorld 0)
    = (Normal (Respond processingFailed), freshWorld 0) /\
  DomainMapperEdge.handler (storeDown 5) [ {| cf_request := None |} ] (freshWorld 0)
    = (Normal (Respond processingFailed), freshWorld 0).
Proof.
  split.
  - apply (X1_malformed_request (storeDown 5) (sampleEvent (sampleRequest "" "/dashboard"))
             (freshWorld 0) eq_refl).
  - apply (X1_malformed_request (storeDown 5) [ {| cf_request := None |} ]
             (freshWorld 0) eq_refl).
Defined.

(** Close a goal [exists o, Normal x = Normal o /\ forall r, o = Respond r ->
    ownResponse ...] for a known outcome [x]. *)
Ltac own_response :=
  eexists; split; [reflexivity|]; intros r Hr;
  first [ discriminate Hr
        | injection Hr as <-;
          first [ by left
                | by (right; left)
                | right; right; eexists _, _; split; [eassumption | reflexivity] ] ].

(** X2. No resolver draft ever rejects: every run ends with an outcome.
    When the outcome is a response of the handler's own, it is one of the
    two fixed 500 responses or the 404 response naming the lower-cased
    host of the event; nothing else of the request is echoed. *)
Theorem X2_resolver_outcomes d ev w :
  (exists o, (Index.handler d ev w).1 = Normal o /\
     forall r, o = Respond r ->
       ownResponse Index.createNotFoundResponse processingFailed ev r) /\
  (exists o, (CachedMapper.handler d ev w).1 = Normal o /\
     forall r, o = Respond r ->
       ownResponse CachedMapper.createNotFoundResponse processingFailed ev r) /\
  (exists o, (DomainMapperEdge.handler d ev w).1 = Normal o /\
     forall r, o = Respond r ->
       ownResponse DomainMapperEdge.createNotFoundResponse processingFailed ev r) /\
  (exists o, (WriteOnlyMapper.handler d ev w).1 = Normal o /\
     forall r, o = Respond r ->
       ownResponse WriteOnlyMapper.createNotFoundResponse
         WriteOnlyMapper.requestFailed ev r).
Proof.
  destruct (requestHost ev) as [[request host]|] eqn:Hv.
  2:{ rewrite (Index_handler_invalid d ev w Hv), (CM_handler_invalid d ev w Hv),
        (DME_handler_invalid d ev w Hv), (WO_handler_invalid d ev w Hv).
      repeat split; own_response. }
  destruct (includes host "amplifyapp.com") eqn:Ha.
  { rewrite (Index_handler_amplify d _ _ _ w Hv Ha), (CM_handler_amplify d _ _ _ w Hv Ha),
      (DME_handler_amplify d _ _ _ w Hv Ha), (WO_handler_amplify d _ _ _ w Hv Ha).
    repeat split; own_response. }
  repeat split.
  - destruct (endsWith host "ve.ai") eqn:He.
    { rewrite (Index_handler_veai d _ _ _ w Hv Ha He). own_response. }
    rewrite (Index_handler_lookup d _ _ _ w Hv Ha He).
    destruct (stale_dec w host) as [Hs|(entry & Hc & Hlt)].
    + rewrite (Index_lookup_miss d _ _ Hs). simpl.
      destruct (getItem d host) as [item|name]; [|own_response].
      destruct (activeWorkspace item); own_response.
    + rewrite (Index_lookup_hit d _ _ _ Hc Hlt).
      destruct (workspaceId entry) as [wid|]; [destruct (truthy wid)|]; own_response.
  - destruct (stale_dec w host) as [Hs|(entry & Hc & Hlt)].
    + rewrite (CM_handler_miss d _ _ _ w Hv Ha Hs). simpl.
      destruct (getItem d host) as [item|name]; [|own_response].
      destruct (activeWorkspace item); own_response.
    + rewrite (CM_handler_hit d _ _ _ w Hv _ Ha Hc Hlt).
      destruct (workspaceId entry) as [wid|]; [destruct (truthy wid)|]; own_response.
  - rewrite (DME_handler_lookup d _ _ _ w Hv Ha). simpl.
    destruct (getItem d host) as [item|name]; [|own_response].
    destruct (activeWorkspace item); own_response.
  - rewrite (WO_handler_lookup d _ _ _ w Hv Ha). simpl.
    destruct (getItem d host) as [item|name]; [|own_response].
    destruct (activeWorkspace item); own_response.
Qed.

(** ** The finalizers on every event *)


(** X4. Origin-request-edge is idempotent: a request it has forwarded is
    forwarded unchanged when it passes the handler again. *)
Theorem X4_origin_request_edge_idempotent request request' :
  OriginRequestEdge.handler [ {| cf_request := Some request |} ]
    = Normal (Forward request') ->
  OriginRequestEdge.handler [ {| cf_request := Some request' |} ]
    = Normal (Forward request').
Proof.
  unfold OriginRequestEdge.handler, tryCatch. simpl.
  destruct (firstValue (headers request) "x-custom-host") as [c|] eqn:Hc; simpl.
  - destruct (truthy c) eqn:Ht; simpl; intros Hr; injection Hr as <-.
    + unfold firstValue. simpl. by rewrite lookup_delete_eq.
    + by rewrite Hc, Ht.
  - intros Hr. injection Hr as <-. by rewrite Hc.
Qed.

Lemma X4_origin_request_edge_idempotent_witness :
  exists request',
    OriginRequestEdge.handler
      [ {| cf_request := Some (carrierRequest "gallery.example.com" "/" newDomain) |} ]
      = Normal (Forward request') /\
    OriginRequestEdge.handler [ {| cf_request := Some request' |} ]
      = Normal (Forward request').
Proof.
  eexists. split; [reflexivity|].
  apply (X4_origin_request_edge_idempotent
           (carrierRequest "gallery.example.com" "/" newDomain)).
  reflexivity.
Defined.

(** X5. The debug draft of the finalizer never answers with a response of
    its own.  Its promise rejects, with the [ReferenceError] raised in the
    [catch] block, exactly when the event has no request or the carrier is
    an empty array; otherwise it forwards a request without carrier. *)
Theorem X5_debug_finalizer_outcomes ev :
  match OriginRequestDebug.handler ev with
  | Normal (Forward request') =>
      headers request' !! "x-custom-host" = None /\
      exists request, eventRequest ev = Some request /\
                      headers request !! "x-custom-host" <> Some []
  | Normal (Respond _) => False
  | Throw e =>
      e = ReferenceError /\
      (eventRequest ev = None \/
       exists request, eventRequest ev = Some request /\
                       headers request !! "x-custom-host" = Some [])
  end.
Proof.
  unfold OriginRequestDebug.handler, tryCatch. simpl.
  destruct (eventRequest ev) as [request|]; simpl; [|by split; [|left]].
  destruct (headers request !! "x-custom-host") as [[|h l]|] eqn:Hc; simpl.
  - split; [done|]. right. by exists request.
  - destruct (endsWith (uri request) "/" || endsWith (uri request) "index.html"); simpl.
    + rewrite lookup_insert_ne by done. rewrite lookup_delete_eq.
      split; [done|]. exists request. by rewrite Hc.
    + rewrite lookup_delete_eq. split; [done|]. exists request. by rewrite Hc.
  - destruct (endsWith (uri request) "/" || endsWith (uri request) "index.html"); simpl.
    + rewrite lookup_insert_ne by done. split; [done|]. exists request. by rewrite Hc.
    + split; [done|]. exists request. by rewrite Hc.
Qed.

(** ** What the resolvers change in a forwarded request *)

Lemma DME_transform_frame request wid :
  headers (DomainMapperEdge.transform request wid) !! "host" = headers request !! "host" /\
  method (DomainMapperEdge.transform request wid) = method request /\
  querystring (DomainMapperEdge.transform request wid) = querystring request /\
  origin (DomainMapperEdge.transform request wid) = origin request /\
  (forall k, k <> "x-custom-host" -> k <> "x-debug-workspace" ->
             k <> "x-debug-original-uri" ->
             headers (DomainMapperEdge.transform request wid) !! k = headers request !! k).
Proof.
  unfold DomainMapperEdge.transform. simpl. split.
  - by rewrite !lookup_insert_ne.
  - repeat split. intros k H1 H2 H3. by rewrite !lookup_insert_ne.
Qed.

(** X6. Domain-mapper-edge, which runs where the host header is read-only,
    never changes it: in every request it forwards, the host header, the
    method, the query string and the origin are those of the incoming
    request, and so is every header other than [x-custom-host],
    [x-debug-workspace] and [x-debug-original-uri]. *)
Theorem X6_viewer_request_keeps_host d ev request host w request' :
  requestHost ev = Some (request, host) ->
  (DomainMapperEdge.handler d ev w).1 = Normal (Forward request') ->
  headers request' !! "host" = headers request !! "host" /\
  method request' = method request /\
  querystring request' = querystring request /\
  origin request' = origin request /\
  (forall k, k <> "x-custom-host" -> k <> "x-debug-workspace" ->
             k <> "x-debug-original-uri" ->
             headers request' !! k = headers request !! k).
Proof.
  intros Hv Hrun.
  destruct (includes host "amplifyapp.com") eqn:Ha.
  { rewrite (DME_handler_amplify d _ _ _ w Hv Ha) in Hrun. injection Hrun as <-. done. }
  rewrite (DME_handler_lookup d _ _ _ w Hv Ha) in Hrun. simpl in Hrun.
  destruct (getItem d host) as [item|name]; [|discriminate].
  destruct (activeWorkspace item) as [wid|]; [|discriminate].
  injection Hrun as <-. apply DME_transform_frame.
Qed.

Lemma X6_viewer_request_keeps_host_witness :
  headers (DomainMapperEdge.transform
             (sampleRequest "Gallery.Example.com" "/dashboard") "workspace-1") !! "host"
    = Some [ {| key := "Host"; value := "Gallery.Example.com" |} ].
Proof.
  refine (proj1 (X6_viewer_request_keeps_host
                   (storeWith "gallery.example.com" (activeItem "workspace-1") 12)
                   (sampleEvent (sampleRequest "Gallery.Example.com" "/dashboard"))
                   (sampleRequest "Gallery.Example.com" "/dashboard")
                   "gallery.example.com" (freshWorld 0) _ _ _)); reflexivity.
Defined.

(** X7. The two stages in sequence.  When domain-mapper-edge finds an
    active mapping, the request it forwards passes origin-request-edge and
    reaches the origin with the rewritten path, the fixed origin host in
    the host header, no carrier, and the two debug headers holding the
    workspace id and the path as the client sent it. *)
Theorem X7_both_stages d ev request host item wid w :
  requestHost ev = Some (request, host) ->
  includes host "amplifyapp.com" = false ->
  getItem d host = resolved item ->
  activeWorkspace item = Some wid ->
  exists viewer final,
    (DomainMapperEdge.handler d ev w).1 = Normal (Forward viewer) /\
    OriginRequestEdge.handler [ {| cf_request := Some viewer |} ] = Normal (Forward final) /\
    uri final = DomainMapperEdge.transformedUri (uri request) wid /\
    firstValue (headers final) "host" = Some newDomain /\
    headers final !! "x-custom-host" = None /\
    firstValue (headers final) "x-debug-workspace" = Some wid /\
    firstValue (headers final) "x-debug-original-uri" = Some (uri request) /\
    querystring final = querystring request /\ method final = method request.
Proof.
  intros Hv Ha Hget Hact.
  rewrite (DME_handler_lookup d _ _ _ w Hv Ha). simpl. rewrite Hget, Hact.
  eexists _, _. split; [reflexivity|].
  unfold OriginRequestEdge.handler, tryCatch, firstValue, DomainMapperEdge.transform.
  simpl. rewrite !lookup_insert_ne by done. rewrite lookup_insert_eq. simpl.
  split; [reflexivity|]. simpl.
  rewrite lookup_delete_eq. rewrite !lookup_delete_ne by done.
  rewrite lookup_insert_eq. rewrite !lookup_insert_ne by done.
  rewrite !lookup_insert_eq. rewrite lookup_insert_ne by done.
  rewrite lookup_insert_eq. done.
Qed.

Lemma X7_both_stages_witness :
  exists viewer final,
    (DomainMapperEdge.handler
       (storeWith "gallery.example.com" (activeItem "workspace-1") 12)
       (sampleEvent (sampleRequest "gallery.example.com" "/dashboard"))
       (freshWorld 0)).1 = Normal (Forward viewer) /\
    OriginRequestEdge.handler [ {| cf_request := Some viewer |} ] = Normal (Forward final) /\
    uri final = "/workspace-1/dashboard" /\
    firstValue (headers final) "host" = Some newDomain.
Proof.
  destruct (X7_both_stages
              (storeWith "gallery.example.com" (activeItem "workspace-1") 12)
              (sampleEvent (sampleRequest "gallery.example.com" "/dashboard"))
              (sampleRequest "gallery.example.com" "/dashboard")
              "gallery.example.com" (Some (activeItem "workspace-1")) "workspace-1"
              (freshWorld 0) eq_refl eq_refl eq_refl eq_refl)
    as (viewer & final & H1 & H2 & H3 & H4 & _).
  exists viewer, final. repeat split; assumption.
Defined.

Lemma Index_setOrigin_frame request wid :
  firstValue (headers (Index.setOrigin request wid)) "host" = Some newDomain /\
  origin (Index.setOrigin request wid) = Some amplifyOrigin /\
  uri (Index.setOrigin request wid) = "/" +:+ wid +:+ uri request /\
  method (Index.setOrigin request wid) = method request /\
  querystring (Index.setOrigin request wid) = querystring request /\
  (forall k, k <> "host" ->
             headers (Index.setOrigin request wid) !! k = headers request !! k).
Proof.
  unfold Index.setOrigin, firstValue. simpl. rewrite lookup_insert_eq.
  repeat split. intros k Hk. by rewrite lookup_insert_ne.
Qed.

(** X8. In [src/index.mjs], every request forwarded for a host other than
    the platform's own goes to the shared origin under the workspace the
    handler resolved: its host header is the fixed origin host, its origin
    is the HTTPS custom origin of that name, method, query string and all
    other headers are untouched, and its path is [/], the resolved
    workspace id and the incoming path.  The resolved id is the host's
    first label if the host ends in [ve.ai]; otherwise the id of the fresh
    cache entry if there is one, and else the id of the active mapping the
    store returned. *)
Theorem X8_index_forwards_to_shared_origin d ev request host w request' :
  requestHost ev = Some (request, host) ->
  includes host "amplifyapp.com" = false ->
  (Index.handler d ev w).1 = Normal (Forward request') ->
  firstValue (headers request') "host" = Some newDomain /\
  origin request' = Some amplifyOrigin /\
  method request' = method request /\
  querystring request' = querystring request /\
  (forall k, k <> "host" -> headers request' !! k = headers request !! k) /\
  exists wid,
    uri request' = "/" +:+ wid +:+ uri request /\
    (endsWith host "ve.ai" = true -> wid = interpolate (head (split "." host))) /\
    (endsWith host "ve.ai" = false ->
     (forall entry, cache w !! host = Some entry -> now w < expiry entry ->
                    workspaceId entry = Some wid) /\
     (stale w host ->
      exists item, getItem d host = resolved item /\ activeWorkspace item = Some wid)).
Proof.
  intros Hv Ha Hrun.
  assert (exists wid,
            request' = Index.setOrigin request wid /\
            (endsWith host "ve.ai" = true -> wid = interpolate (head (split "." host))) /\
            (endsWith host "ve.ai" = false ->
             (forall entry, cache w !! host = Some entry -> now w < expiry entry ->
                            workspaceId entry = Some wid) /\
             (stale w host ->
              exists item, getItem d host = resolved item /\
                           activeWorkspace item = Some wid)))
    as (wid & -> & Hve & Hcustom).
  { destruct (endsWith host "ve.ai") eqn:He.
    { rewrite (Index_handler_veai d _ _ _ w Hv Ha He) in Hrun.
      injection Hrun as <-. eexists. split; [reflexivity|]. by split. }
    rewrite (Index_handler_lookup d _ _ _ w Hv Ha He) in Hrun.
    destruct (stale_dec w host) as [Hs|(entry & Hc & Hlt)].
    - rewrite (Index_lookup_miss d _ _ Hs) in Hrun. simpl in Hrun.
      destruct (getItem d host) as [item|name] eqn:Hget; [|discriminate].
      destruct (activeWorkspace item) as [wid|] eqn:Hact; [|discriminate].
      injection Hrun as <-. exists wid. split; [reflexivity|]. split; [discriminate|].
      intros _. split.
      + intros entry Hc Hlt. unfold stale in Hs. rewrite Hc in Hs. lia.
      + intros _. by exists item.
    - rewrite (Index_lookup_hit d _ _ _ Hc Hlt) in Hrun.
      destruct (workspaceId entry) as [wid|] eqn:Hw; [destruct (truthy wid)|];
        try discriminate.
      injection Hrun as <-. exists wid. split; [reflexivity|]. split; [discriminate|].
      intros _. split.
      + intros entry' Hc' _. rewrite Hc in Hc'. injection Hc' as <-. exact Hw.
      + intros Hs. unfold stale in Hs. rewrite Hc in Hs. lia. }
  destruct (Index_setOrigin_frame request wid) as (H1 & H2 & H3 & H4 & H5 & H6).
  repeat (split; [done|]). by exists wid.
Qed.

Lemma X8_index_forwards_witness :
  let d := storeWith "gallery.example.com" (activeItem "workspace-1") 12 in
  let request := sampleRequest "gallery.example.com" "/dashboard" in
  exists wid,
    uri (Index.setOrigin request "workspace-1") = "/" +:+ wid +:+ "/dashboard" /\
    exists item,
      getItem d "gallery.example.com" = resolved item /\
      activeWorkspace item = Some wid.
Proof.
  intros d request.
  destruct (X8_index_forwards_to_shared_origin d (sampleEvent request) request
              "gallery.example.com" (freshWorld 0)
              (Index.setOrigin request "workspace-1") eq_refl eq_refl eq_refl)
    as (_ & _ & _ & _ & _ & wid & Hu & _ & Hc).
  exists wid. split; [exact Hu|].
  destruct (Hc eq_refl) as [_ Hs]. exact (Hs I).
Defined.

(** ** The cache of [src/index.mjs] and of the cached draft *)

(** Split a goal about a run of [src/index.mjs] into the runs the handler
    can make for an event with a request and a host. *)
Ltac index_cases d host w Hv :=
  let Ha := fresh "Ha" in
  let He := fresh "He" in
  let Hs := fresh "Hs" in
  let entry := fresh "entry" in
  let Hc := fresh "Hc" in
  let Hlt := fresh "Hlt" in
  let item := fresh "item" in
  destruct (includes host "amplifyapp.com") eqn:Ha;
  [ rewrite (Index_handler_amplify d _ _ _ w Hv Ha)
  | destruct (endsWith host "ve.ai") eqn:He;
    [ rewrite (Index_handler_veai d _ _ _ w Hv Ha He)
    | rewrite (Index_handler_lookup d _ _ _ w Hv Ha He);
      destruct (stale_dec w host) as [Hs|(entry & Hc & Hlt)];
      [ rewrite (Index_lookup_miss d _ _ Hs); simpl;
        destruct (getItem d host) as [item|?];
        [ destruct (activeWorkspace item) eqn:? | ]
      | rewrite (Index_lookup_hit d _ _ _ Hc Hlt);
        destruct (workspaceId entry) as [?|] eqn:?; [ destruct (truthy _) eqn:? | ] ] ] ];
  simpl.

(** The same for the cached draft. *)
Ltac cached_cases d host w Hv :=
  let Ha := fresh "Ha" in
  let Hs := fresh "Hs" in
  let entry := fresh "entry" in
  let Hc := fresh "Hc" in
  let Hlt := fresh "Hlt" in
  let item := fresh "item" in
  destruct (includes host "amplifyapp.com") eqn:Ha;
  [ rewrite (CM_handler_amplify d _ _ _ w Hv Ha)
  | destruct (stale_dec w host) as [Hs|(entry & Hc & Hlt)];
    [ rewrite (CM_handler_miss d _ _ _ w Hv Ha Hs); simpl;
      destruct (getItem d host) as [item|?];
      [ destruct (activeWorkspace item) eqn:? | ]
    | rewrite (CM_handler_hit d _ _ _ w Hv _ Ha Hc Hlt);
      destruct (workspaceId entry) as [?|] eqn:?; [ destruct (truthy _) eqn:? | ] ] ];
  simpl.

(** X9. In [src/index.mjs], a cache entry stops counting at its expiry
    instant: a request that arrives [CACHE_TTL] milliseconds or more after
    the entry was written reads the store again, and its outcome is what
    the store says then, whatever the entry held. *)
Theorem X9_entry_expires_at_ttl
    d1 d2 ev1 ev2 request1 request2 host item w out1 w1 dt :
  requestHost ev1 = Some (request1, host) ->
  requestHost ev2 = Some (request2, host) ->
  Index.handler d1 ev1 w = (out1, w1) ->
  In (StoreRead host) (newEffects w w1) ->
  getItem d1 host = resolved item ->
  CACHE_TTL <= dt ->
  cache w1 !! host =
    Some {| workspaceId := activeWorkspace item; expiry := now w1 + CACHE_TTL |} /\
  In (StoreRead host) (newEffects (elapse dt w1) (Index.handler d2 ev2 (elapse dt w1)).2) /\
  (Index.handler d2 ev2 (elapse dt w1)).1 =
    Normal match getItem d2 host with
           | rejected _ => Respond lookupFailed
           | resolved item2 =>
               match activeWorkspace item2 with
               | Some wid => Forward (Index.setOrigin request2 wid)
               | None => Respond (Index.createNotFoundResponse host)
               end
           end.
Proof.
  intros Hv1 Hv2 Hrun Hr Hget Hdt.
  assert (Hr' : In (StoreRead host) (newEffects w (Index.handler d1 ev1 w).2))
    by (by rewrite Hrun).
  destruct (Index_handler_reads _ _ _ _ _ Hv1 Hr') as (Ha & He & Hs).
  rewrite (Index_handler_lookup _ _ _ _ _ Hv1 Ha He), (Index_lookup_miss _ _ _ Hs) in Hrun.
  simpl in Hrun. rewrite Hget in Hrun. simpl in Hrun.
  assert (Hw1 : {| cache := <[host := {| workspaceId := activeWorkspace item;
                                        expiry := now w + roundTrip d1 + CACHE_TTL |}]>
                              (cache w);
                   now := now w + roundTrip d1;
                   trace := CacheWrite host {| workspaceId := activeWorkspace item;
                                                expiry := now w + roundTrip d1 + CACHE_TTL |}
                            :: StoreRead host :: CacheRead host :: trace w |} = w1)
    by (destruct (activeWorkspace item); by injection Hrun).
  assert (cache w1 !! host =
          Some {| workspaceId := activeWorkspace item; expiry := now w1 + CACHE_TTL |}) as Hc.
  { rewrite <- Hw1. simpl. apply lookup_insert_eq. }
  split; [exact Hc|].
  assert (stale (elapse dt w1) host) as Hs2.
  { unfold stale. simpl. rewrite Hc. simpl. lia. }
  rewrite (Index_handler_lookup _ _ _ _ _ Hv2 Ha He), (Index_lookup_miss _ _ _ Hs2).
  simpl. destruct (getItem d2 host) as [item2|name];
    [destruct (activeWorkspace item2)|]; simpl.
  - rewrite (newEffects_app (elapse dt w1) _ [CacheWrite host _; StoreRead host; CacheRead host])
      by reflexivity.
    split; [simpl; auto | reflexivity].
  - rewrite (newEffects_app (elapse dt w1) _ [CacheWrite host _; StoreRead host; CacheRead host])
      by reflexivity.
    split; [simpl; auto | reflexivity].
  - rewrite (newEffects_app (elapse dt w1) _ [StoreRead host; CacheRead host])
      by reflexivity.
    split; [simpl; auto | reflexivity].
Qed.

Lemma X9_entry_expires_witness :
  let d := storeWith "gallery.example.com" (activeItem "workspace-1") 12 in
  let ev := sampleEvent (sampleRequest "gallery.example.com" "/dashboard") in
  let r1 := Index.handler d ev (freshWorld 1000) in
  (Index.handler (storeDown 5) ev (elapse 300000 r1.2)).1 = Normal (Respond lookupFailed).
Proof.
  intros d ev r1.
  refine (proj2 (proj2 (X9_entry_expires_at_ttl d (storeDown 5) ev ev
                   (sampleRequest "gallery.example.com" "/dashboard")
                   (sampleRequest "gallery.example.com" "/dashboard")
                   "gallery.example.com" (Some (activeItem "workspace-1"))
                   (freshWorld 1000) r1.1 r1.2 300000 _ _ _ _ _ _))).
  - reflexivity.
  - reflexivity.
  - reflexivity.
  - vm_compute. auto.
  - reflexivity.
  - unfold CACHE_TTL. lia.
Defined.

Lemma Index_one_key d ev request host w :
  requestHost ev = Some (request, host) ->
  Forall (fun e => effectHost e = host) (newEffects w (Index.handler d ev w).2) /\
  (forall k, k <> host -> cache (Index.handler d ev w).2 !! k = cache w !! k) /\
  (is_Some (cache w !! host) -> is_Some (cache (Index.handler d ev w).2 !! host)).
Proof.
  intros Hv.
  index_cases d host w Hv; autorewrite with effects;
    (split; [by repeat constructor|]);
    (split; [intros k Hk; by rewrite ?lookup_insert_ne | intros Hsome]);
    rewrite ?lookup_insert_eq; done.
Qed.

Lemma CM_one_key d ev request host w :
  requestHost ev = Some (request, host) ->
  Forall (fun e => effectHost e = host) (newEffects w (CachedMapper.handler d ev w).2) /\
  (forall k, k <> host -> cache (CachedMapper.handler d ev w).2 !! k = cache w !! k) /\
  (is_Some (cache w !! host) -> is_Some (cache (CachedMapper.handler d ev w).2 !! host)).
Proof.
  intros Hv.
  cached_cases d host w Hv; autorewrite with effects;
    (split; [by repeat constructor|]);
    (split; [intros k Hk; by rewrite ?lookup_insert_ne | intros Hsome]);
    rewrite ?lookup_insert_eq; done.
Qed.

(** X10. A run of [src/index.mjs] or of the cached draft touches one key
    only: every cache access and store lookup it makes is for the
    lower-cased host of the request, the entry of every other host is left
    as it was, and no entry is ever removed. *)
Theorem X10_one_key_per_run d ev request host w :
  requestHost ev = Some (request, host) ->
  (Forall (fun e => effectHost e = host) (newEffects w (Index.handler d ev w).2) /\
   (forall k, k <> host -> cache (Index.handler d ev w).2 !! k = cache w !! k) /\
   (is_Some (cache w !! host) -> is_Some (cache (Index.handler d ev w).2 !! host))) /\
  (Forall (fun e => effectHost e = host) (newEffects w (CachedMapper.handler d ev w).2) /\
   (forall k, k <> host -> cache (CachedMapper.handler d ev w).2 !! k = cache w !! k) /\
   (is_Some (cache w !! host) -> is_Some (cache (CachedMapper.handler d ev w).2 !! host))).
Proof.
  intros Hv. split.
  - exact (Index_one_key d ev request host w Hv).
  - exact (CM_one_key d ev request host w Hv).
Qed.

Lemma X10_one_key_per_run_witness :
  let d := storeWith "gallery.example.com" (activeItem "workspace-1") 12 in
  let ev := sampleEvent (sampleRequest "Gallery.Example.com" "/dashboard") in
  Forall (fun e => effectHost e = "gallery.example.com")
    (newEffects (freshWorld 0) (Index.handler d ev (freshWorld 0)).2).
Proof.
  intros d ev.
  exact (proj1 (proj1 (X10_one_key_per_run d ev
                         (sampleRequest "Gallery.Example.com" "/dashboard")
                         "gallery.example.com" (freshWorld 0) eq_refl))).
Defined.

Lemma boundedStaleness_keep w w' :
  boundedStaleness w -> cache w' = cache w -> now w <= now w' -> boundedStaleness w'.
Proof.
  intros Hb Hc Hn h entry He. rewrite Hc in He. specialize (Hb h entry He). lia.
Qed.

Lemma boundedStaleness_insert w w' host entry :
  boundedStaleness w ->
  cache w' = <[host := entry]> (cache w) ->
  now w <= now w' ->
  expiry entry <= now w' + CACHE_TTL ->
  boundedStaleness w'.
Proof.
  intros Hb Hc Hn Hx h e He. rewrite Hc in He.
  destruct (decide (host = h)) as [->|Hne].
  - rewrite lookup_insert_eq in He. injection He as <-. exact Hx.
  - rewrite lookup_insert_ne in He by done. specialize (Hb h e He). lia.
Qed.

(** X11. Bounded staleness.  If no cache entry is usable for longer than
    [CACHE_TTL] from now, the same holds after any run of [src/index.mjs]
    or of the cached draft and after any lapse of time, provided the clock
    does not run backwards: an entry is never trusted for more than one
    TTL after the lookup that wrote it. *)
Theorem X11_bounded_staleness d ev w dt :
  boundedStaleness w ->
  0 <= roundTrip d ->
  0 <= dt ->
  boundedStaleness (elapse dt (Index.handler d ev w).2) /\
  boundedStaleness (elapse dt (CachedMapper.handler d ev w).2).
Proof.
  intros Hb Hrt Hdt.
  destruct (requestHost ev) as [[request host]|] eqn:Hv.
  2:{ rewrite (Index_handler_invalid d ev w Hv), (CM_handler_invalid d ev w Hv).
      split; (eapply boundedStaleness_keep; [exact Hb | reflexivity | simpl; lia]). }
  split.
  - index_cases d host w Hv;
      first [ eapply boundedStaleness_keep; [exact Hb | reflexivity | simpl; lia]
            | eapply boundedStaleness_insert;
              [exact Hb | reflexivity | simpl; lia | simpl; lia] ].
  - cached_cases d host w Hv;
      first [ eapply boundedStaleness_keep; [exact Hb | reflexivity | simpl; lia]
            | eapply boundedStaleness_insert;
              [exact Hb | reflexivity | simpl; lia | simpl; lia] ].
Qed.

Lemma X11_bounded_staleness_witness :
  let d := storeWith "gallery.example.com" (activeItem "workspace-1") 12 in
  let ev := sampleEvent (sampleRequest "gallery.example.com" "/dashboard") in
  boundedStaleness (elapse 1000 (Index.handler d ev (freshWorld 0)).2).
Proof.
  intros d ev.
  refine (proj1 (X11_bounded_staleness d ev (freshWorld 0) 1000 _ _ _)).
  - intros h entry He. vm_compute in He. discriminate.
  - simpl. lia.
  - lia.
Defined.

Lemma positiveEntriesNamed_insert w w' host entry :
  positiveEntriesNamed w ->
  cache w' = <[host := entry]> (cache w) ->
  workspaceId entry <> Some "" ->
  positiveEntriesNamed w'.
Proof.
  intros Hp Hc Hx h e He. rewrite Hc in He.
  destruct (decide (host = h)) as [->|Hne].
  - rewrite lookup_insert_eq in He. injection He as <-. exact Hx.
  - rewrite lookup_insert_ne in He by done. exact (Hp h e He).
Qed.

Lemma activeWorkspace_named item : activeWorkspace item <> Some "".
Proof. intros H. by apply activeWorkspace_truthy in H. Qed.

(** The entry written after a store lookup holds no empty id. *)
Ltac written_id_named :=
  simpl;
  first [ apply activeWorkspace_named
        | discriminate
        | let Heq := fresh in
          intros Heq; injection Heq as ->;
          match goal with
          | H : activeWorkspace _ = Some "" |- _ => by apply activeWorkspace_truthy in H
          end ].

(** X12. The three drafts that write the cache never store an empty
    workspace id: if every entry holds [null] or a non-empty id, so it is
    after a run.  The truthiness test on the cached id therefore tells
    negative entries from positive ones and nothing else. *)
Theorem X12_cached_ids_not_empty d ev w :
  positiveEntriesNamed w ->
  positiveEntriesNamed (Index.handler d ev w).2 /\
  positiveEntriesNamed (CachedMapper.handler d ev w).2 /\
  positiveEntriesNamed (WriteOnlyMapper.handler d ev w).2.
Proof.
  intros Hp.
  destruct (requestHost ev) as [[request host]|] eqn:Hv.
  2:{ by rewrite (Index_handler_invalid d ev w Hv), (CM_handler_invalid d ev w Hv),
        (WO_handler_invalid d ev w Hv). }
  repeat split.
  - index_cases d host w Hv;
      first [ exact Hp
            | eapply positiveEntriesNamed_insert;
              [exact Hp | reflexivity | written_id_named] ].
  - cached_cases d host w Hv;
      first [ exact Hp
            | eapply positiveEntriesNamed_insert;
              [exact Hp | reflexivity | written_id_named] ].
  - destruct (includes host "amplifyapp.com") eqn:Ha.
    { by rewrite (WO_handler_amplify d _ _ _ w Hv Ha). }
    rewrite (WO_handler_lookup d _ _ _ w Hv Ha). simpl.
    destruct (getItem d host) as [item|name]; [|exact Hp].
    eapply positiveEntriesNamed_insert;
      [exact Hp | reflexivity | apply activeWorkspace_named].
Qed.

Lemma X12_cached_ids_not_empty_witness :
  positiveEntriesNamed
    (Index.handler (storeWith "gallery.example.com"
                      {| workspaceId_S := Some ""; status_S := Some "active" |} 12)
       (sampleEvent (sampleRequest "gallery.example.com" "/dashboard"))
       (freshWorld 0)).2.
Proof.
  refine (proj1 (X12_cached_ids_not_empty _ _ (freshWorld 0) _)).
  intros h entry He. vm_compute in He. discriminate.
Defined.

(** ** The cached draft *)

(** X13. In the cached draft, after a run whose store lookup resolved, a
    second request for the same host less than [CACHE_TTL] milliseconds
    later reads the store no more and is decided by the cached result: it
    is rewritten by [transformRequest] with the cached workspace id, or
    answered with the 404 response if the lookup found no active
    mapping. *)
Theorem X13_cached_draft_hit
    d1 d2 ev1 ev2 request1 request2 host item w dt :
  requestHost ev1 = Some (request1, host) ->
  requestHost ev2 = Some (request2, host) ->
  In (StoreRead host) (newEffects w (CachedMapper.handler d1 ev1 w).2) ->
  getItem d1 host = resolved item ->
  0 <= dt < CACHE_TTL ->
  let w1 := elapse dt (CachedMapper.handler d1 ev1 w).2 in
  newEffects w1 (CachedMapper.handler d2 ev2 w1).2 = [CacheRead host] /\
  (CachedMapper.handler d2 ev2 w1).1 =
    Normal match activeWorkspace item with
           | Some wid => Forward (CachedMapper.transformRequest request2 wid)
           | None => Respond (CachedMapper.createNotFoundResponse host)
           end.
Proof.
  intros Hv1 Hv2 Hr Hget Hdt.
  destruct (CM_handler_reads _ _ _ _ _ Hv1 Hr) as (Ha & Hs).
  rewrite (CM_handler_miss _ _ _ _ _ Hv1 Ha Hs). simpl. rewrite Hget. simpl.
  set (entry := {| workspaceId := activeWorkspace item;
                   expiry := now w + roundTrip d1 + CACHE_TTL |}).
  set (w1 := elapse dt _).
  assert (cache w1 !! host = Some entry) as Hc by (simpl; apply lookup_insert_eq).
  assert (now w1 < expiry entry) as Hlt by (simpl; lia).
  rewrite (CM_handler_hit _ _ _ _ _ Hv2 _ Ha Hc Hlt). simpl.
  rewrite (newEffects_app w1 _ [CacheRead host]) by reflexivity.
  split; [reflexivity|].
  destruct (activeWorkspace item) as [wid|] eqn:Hact; [|reflexivity].
  by rewrite (activeWorkspace_truthy _ _ Hact).
Qed.

Lemma X13_cached_draft_hit_witness :
  let d := storeWith "gallery.example.com" (activeItem "workspace-1") 12 in
  let ev1 := sampleEvent (sampleRequest "gallery.example.com" "/dashboard") in
  let ev2 := sampleEvent (sampleRequest "gallery.example.com" "/") in
  (CachedMapper.handler (storeDown 5) ev2
     (elapse 1000 (CachedMapper.handler d ev1 (freshWorld 0)).2)).1 =
    Normal (Forward (CachedMapper.transformRequest
                       (sampleRequest "gallery.example.com" "/") "workspace-1")).
Proof.
  intros d ev1 ev2.
  refine (proj2 (X13_cached_draft_hit d (storeDown 5) ev1 ev2
                   (sampleRequest "gallery.example.com" "/dashboard")
                   (sampleRequest "gallery.example.com" "/")
                   "gallery.example.com" (Some (activeItem "workspace-1"))
                   (freshWorld 0) 1000 _ _ _ _ _)).
  - reflexivity.
  - reflexivity.
  - vm_compute. auto.
  - reflexivity.
  - unfold CACHE_TTL. lia.
Defined.

(** X14. In the cached draft, a rejected store lookup yields the fixed 500
    response of the [catch (dbError)] block and writes nothing; an expired
    entry for the host, if there was one, is neither served nor removed,
    and the next request for the host reads the store again. *)
Theorem X14_cached_draft_store_failure d1 ev request host name w :
  requestHost ev = Some (request, host) ->
  In (StoreRead host) (newEffects w (CachedMapper.handler d1 ev w).2) ->
  getItem d1 host = rejected name ->
  (CachedMapper.handler d1 ev w).1 = Normal (Respond lookupFailed) /\
  cache (CachedMapper.handler d1 ev w).2 = cache w /\
  forall d2 ev2 request2 w2,
    requestHost ev2 = Some (request2, host) ->
    cache w2 = cache (CachedMapper.handler d1 ev w).2 ->
    now w <= now w2 ->
    In (StoreRead host) (newEffects w2 (CachedMapper.handler d2 ev2 w2).2).
Proof.
  intros Hv Hr Hrej.
  destruct (CM_handler_reads _ _ _ _ _ Hv Hr) as (Ha & Hs).
  rewrite (CM_handler_miss _ _ _ _ _ Hv Ha Hs). simpl. rewrite Hrej. simpl.
  repeat split.
  intros d2 ev2 request2 w2 Hv2 Hc Ht.
  assert (stale w2 host) as Hs2.
  { unfold stale in *. rewrite Hc. destruct (cache w !! host); [lia | done]. }
  rewrite (CM_handler_miss _ _ _ _ _ Hv2 Ha Hs2). simpl.
  destruct (getItem d2 host) as [item|n2]; simpl; autorewrite with effects; simpl; auto.
Qed.

Lemma X14_cached_draft_store_failure_witness :
  (CachedMapper.handler (storeDown 25)
     (sampleEvent (sampleRequest "gallery.example.com" "/dashboard"))
     (freshWorld 1000)).1 = Normal (Respond lookupFailed).
Proof.
  refine (proj1 (X14_cached_draft_store_failure (storeDown 25)
                   (sampleEvent (sampleRequest "gallery.example.com" "/dashboard"))
                   (sampleRequest "gallery.example.com" "/dashboard")
                   "gallery.example.com" "TimeoutError" (freshWorld 1000) _ _ _)).
  - reflexivity.
  - vm_compute. auto.
  - reflexivity.
Defined.

(** ** The draft with the unread cache *)



(** ** The path helpers *)

Lemma append_assoc (a b c : string) : (a +:+ b) +:+ c = a +:+ b +:+ c.
Proof.
  induction a as [|x a IH]; [reflexivity|].
  change (String x ((a +:+ b) +:+ c) = String x (a +:+ b +:+ c)). by rewrite IH.
Qed.

Lemma requestUri_leading_slash u : exists rest, requestUri u = "/" +:+ rest.
Proof.
  unfold requestUri, startsWith.
  destruct (String.prefix "/" u) eqn:Hp; [|by exists u].
  apply String.prefix_correct in Hp.
  destruct u as [|c u]; [discriminate|].
  exists u. destruct u; simpl in Hp; by injection Hp as ->.
Qed.

Lemma requestUri_idempotent u : requestUri (requestUri u) = requestUri u.
Proof.
  destruct (requestUri_leading_slash u) as [rest ->]. unfold requestUri, startsWith.
  simpl. by destruct rest.
Qed.

(** X16. The two drafts of [transformRequest] compute the same request for
    every input: the separate case of the root path in the cached draft
    changes nothing.  On a path that begins with [/], the inline rewrite of
    [src/index.mjs] gives that same request too. *)
Theorem X16_transform_drafts_agree request wid :
  CachedMapper.transformRequest request wid
    = WriteOnlyMapper.transformRequest request wid /\
  (startsWith (uri request) "/" = true ->
   Index.setOrigin request wid = CachedMapper.transformRequest request wid).
Proof.
  split.
  - unfold CachedMapper.transformRequest, WriteOnlyMapper.transformRequest.
    destruct (String.eqb_spec (requestUri (uri request)) "/") as [->|]; reflexivity.
  - intros Hs. unfold CachedMapper.transformRequest, Index.setOrigin.
    rewrite (requestUri_slash _ Hs).
    destruct (String.eqb_spec (uri request) "/") as [->|]; reflexivity.
Qed.

Lemma X16_transform_drafts_agree_witness :
  Index.setOrigin (sampleRequest "gallery.example.com" "/") "workspace-1"
    = CachedMapper.transformRequest (sampleRequest "gallery.example.com" "/") "workspace-1".
Proof.
  exact (proj2 (X16_transform_drafts_agree
                  (sampleRequest "gallery.example.com" "/") "workspace-1") eq_refl).
Defined.

(** X17. Whatever path comes in, with or without a leading [/],
    [transformRequest] yields a path that begins with [/], the workspace id
    and [/]; host header and origin are those of the shared origin and the
    other headers are kept. *)
Theorem X17_transform_request_shape request wid :
  startsWith (uri (CachedMapper.transformRequest request wid)) ("/" +:+ wid +:+ "/") = true /\
  uri (CachedMapper.transformRequest request wid) = "/" +:+ wid +:+ requestUri (uri request) /\
  firstValue (headers (CachedMapper.transformRequest request wid)) "host" = Some newDomain /\
  origin (CachedMapper.transformRequest request wid) = Some amplifyOrigin /\
  (forall k, k <> "host" ->
     headers (CachedMapper.transformRequest request wid) !! k = headers request !! k).
Proof.
  assert (uri (CachedMapper.transformRequest request wid)
          = "/" +:+ wid +:+ requestUri (uri request)) as Hu.
  { unfold CachedMapper.transformRequest. simpl.
    destruct (String.eqb_spec (requestUri (uri request)) "/") as [->|]; reflexivity. }
  split; [|split; [exact Hu|]].
  - rewrite Hu. destruct (requestUri_leading_slash (uri request)) as [rest ->].
    unfold startsWith.
    replace ("/" +:+ wid +:+ "/" +:+ rest) with (("/" +:+ wid +:+ "/") +:+ rest).
    + apply prefix_append.
    + by rewrite !append_assoc.
  - unfold CachedMapper.transformRequest, firstValue. simpl. rewrite lookup_insert_eq.
    repeat split. intros k Hk. by rewrite lookup_insert_ne.
Qed.

Lemma dropPrefix_Some p s r : dropPrefix p s = Some r -> s = p +:+ r.
Proof.
  revert s. induction p as [|a p IH]; intros s H; simpl in H.
  - by injection H as ->.
  - destruct s as [|b s]; [discriminate|].
    destruct (Ascii.eqb_spec a b) as [->|]; [|discriminate].
    by rewrite (IH s H).
Qed.

Lemma matchesWorkspace_prefix s :
  matchesWorkspace s = true -> startsWith s "/workspace-" = true.
Proof.
  unfold matchesWorkspace, startsWith.
  destruct (dropPrefix "/workspace-" s) as [r|] eqn:Hd; [|discriminate].
  intros _. rewrite (dropPrefix_Some _ _ _ Hd). apply prefix_append.
Qed.

(** X18. The path domain-mapper-edge assigns always begins with
    [/workspace-]; and when the workspace number derived from the id begins
    with a digit, rewriting is idempotent: the rewritten path is recognised
    as carrying a workspace segment and a second pass, for any workspace
    id, leaves it as it is. *)
Theorem X18_rewrite_once u wid :
  startsWith (DomainMapperEdge.transformedUri u wid) "/workspace-" = true /\
  (forall c rest other,
     split "-" wid !! 1%nat = Some (String c rest) ->
     isDigit c = true ->
     matchesWorkspace (DomainMapperEdge.transformedUri u wid) = true /\
     DomainMapperEdge.transformedUri (DomainMapperEdge.transformedUri u wid) other
       = DomainMapperEdge.transformedUri u wid).
Proof.
  unfold DomainMapperEdge.transformedUri.
  destruct (matchesWorkspace (requestUri u)) eqn:Hm.
  - split; [by apply matchesWorkspace_prefix|].
    intros c rest other _ _. split; [exact Hm|].
    by rewrite requestUri_idempotent, Hm.
  - split; [apply prefix_append|].
    intros c rest other -> Hd.
    assert (matchesWorkspace
              ("/workspace-" +:+ interpolate (Some (String c rest)) +:+
               (if String.eqb (requestUri u) "/" then "" else requestUri u)) = true) as Hm2
      by exact Hd.
    split; [exact Hm2|].
    assert (requestUri
              ("/workspace-" +:+ interpolate (Some (String c rest)) +:+
               (if String.eqb (requestUri u) "/" then "" else requestUri u))
            = "/workspace-" +:+ interpolate (Some (String c rest)) +:+
              (if String.eqb (requestUri u) "/" then "" else requestUri u)) as ->
      by reflexivity.
    by rewrite Hm2.
Qed.

Lemma X18_rewrite_once_witness :
  DomainMapperEdge.transformedUri
    (DomainMapperEdge.transformedUri "/dashboard" "workspace-1") "workspace-2"
    = DomainMapperEdge.transformedUri "/dashboard" "workspace-1".
Proof.
  destruct (X18_rewrite_once "/dashboard" "workspace-1") as [_ H].
  exact (proj2 (H "1"%char "" "workspace-2" eq_refl eq_refl)).
Defined.

(** ** Host names *)

Lemma insert_host_same (h1 h2 : gmap string (list Header)) v :
  (forall k, k <> "host" -> h1 !! k = h2 !! k) ->
  <["host" := v]> h1 = <["host" := v]> h2.
Proof.
  intros H. apply map_eq. intros k.
  destruct (decide ("host" = k)) as [<-|Hne].
  - by rewrite !lookup_insert_eq.
  - rewrite !lookup_insert_ne by done. by apply H.
Qed.

Lemma setOrigin_sameButHost r1 r2 wid :
  sameButHost r1 r2 -> Index.setOrigin r1 wid = Index.setOrigin r2 wid.
Proof.
  intros (Hu & Hm & Hq & Ho & Hh). unfold Index.setOrigin, set_uri, set_headers, set_origin.
  simpl. rewrite Hu, Hm, Hq. f_equal. by apply insert_host_same.
Qed.

Lemma transformRequest_sameButHost r1 r2 wid :
  sameButHost r1 r2 ->
  CachedMapper.transformRequest r1 wid = CachedMapper.transformRequest r2 wid.
Proof.
  intros (Hu & Hm & Hq & Ho & Hh).
  unfold CachedMapper.transformRequest, set_uri, set_headers, set_origin.
  simpl. rewrite Hu, Hm, Hq. f_equal. by apply insert_host_same.
Qed.

(** X19. Routing does not depend on how the client spells the host: in
    [src/index.mjs] and in the cached draft, two requests that differ only
    in their host header, with host values equal up to letter case, get
    the same outcome and leave the same cache and trace, unless the host is
    the platform's own (then each request is returned as it came). *)
Theorem X19_host_case_insensitive d ev1 ev2 request1 request2 host w :
  requestHost ev1 = Some (request1, host) ->
  requestHost ev2 = Some (request2, host) ->
  sameButHost request1 request2 ->
  includes host "amplifyapp.com" = false ->
  Index.handler d ev1 w = Index.handler d ev2 w /\
  CachedMapper.handler d ev1 w = CachedMapper.handler d ev2 w.
Proof.
  intros Hv1 Hv2 Hsame Ha. split.
  - destruct (endsWith host "ve.ai") eqn:He.
    { rewrite (Index_handler_veai d _ _ _ w Hv1 Ha He),
        (Index_handler_veai d _ _ _ w Hv2 Ha He).
      by rewrite (setOrigin_sameButHost _ _ _ Hsame). }
    rewrite (Index_handler_lookup d _ _ _ w Hv1 Ha He),
      (Index_handler_lookup d _ _ _ w Hv2 Ha He).
    destruct (Index.lookup d host w) as [[[out|wid]|e] w']; try reflexivity.
    by rewrite (setOrigin_sameButHost _ _ _ Hsame).
  - destruct (stale_dec w host) as [Hs|(entry & Hc & Hlt)].
    + rewrite (CM_handler_miss d _ _ _ w Hv1 Ha Hs), (CM_handler_miss d _ _ _ w Hv2 Ha Hs).
      simpl. destruct (getItem d host) as [item|name]; [|reflexivity].
      destruct (activeWorkspace item) as [wid|]; [|reflexivity].
      by rewrite (transformRequest_sameButHost _ _ _ Hsame).
    + rewrite (CM_handler_hit d _ _ _ w Hv1 _ Ha Hc Hlt),
        (CM_handler_hit d _ _ _ w Hv2 _ Ha Hc Hlt).
      destruct (workspaceId entry) as [wid|]; [destruct (truthy wid)|]; try reflexivity.
      by rewrite (transformRequest_sameButHost _ _ _ Hsame).
Qed.

Lemma X19_host_case_insensitive_witness :
  let d := storeWith smallEcole (activeItem "workspace-1") 12 in
  Index.handler d (sampleEvent (sampleRequest capitalEcole "/dashboard")) (freshWorld 0)
  = Index.handler d (sampleEvent (sampleRequest smallEcole "/dashboard")) (freshWorld 0) /\
  (Index.handler d (sampleEvent (sampleRequest capitalEcole "/dashboard")) (freshWorld 0)).1
  = Normal (Forward (Index.setOrigin (sampleRequest smallEcole "/dashboard") "workspace-1")).
Proof.
  intros d.
  assert (Index.handler d (sampleEvent (sampleRequest capitalEcole "/dashboard"))
            (freshWorld 0)
          = Index.handler d (sampleEvent (sampleRequest smallEcole "/dashboard"))
              (freshWorld 0)) as Hsame.
  { refine (proj1 (X19_host_case_insensitive d _ _
                     (sampleRequest capitalEcole "/dashboard")
                     (sampleRequest smallEcole "/dashboard")
                     smallEcole (freshWorld 0) _ _ _ _)).
    - reflexivity.
    - reflexivity.
    - repeat split. intros k Hk. unfold sampleRequest, hostHeader. simpl.
      by rewrite !lookup_singleton_ne.
    - reflexivity. }
  split; [exact Hsame|]. rewrite Hsame. reflexivity.
Defined.

Lemma toLowerCase_char_idempotent c :
  toLowerCase_char (toLowerCase_char c) = toLowerCase_char c.
Proof. destruct c as [[] [] [] [] [] [] [] []]; reflexivity. Qed.

Lemma toLowerCase_idempotent s : toLowerCase (toLowerCase s) = toLowerCase s.
Proof.
  induction s as [|c s IH]; [reflexivity|].
  simpl. by rewrite toLowerCase_char_idempotent, IH.
Qed.

Lemma requestHost_normalised ev request host :
  requestHost ev = Some (request, host) ->
  host <> "" /\ toLowerCase host = host.
Proof.
  unfold requestHost. intros H.
  destruct (eventRequest ev) as [r|]; simpl in H; [|discriminate].
  destruct (firstValue (headers r) "host") as [v|]; simpl in H; [|discriminate].
  destruct (truthy v) eqn:Ht; [|discriminate].
  injection H as _ <-. split.
  - by destruct v.
  - apply toLowerCase_idempotent.
Qed.

Lemma Forall_normalised host (l : list Effect) :
  host <> "" -> toLowerCase host = host ->
  Forall (fun e => effectHost e = host) l ->
  Forall (fun e => effectHost e <> "" /\ toLowerCase (effectHost e) = effectHost e) l.
Proof.
  intros Hne Hl H. eapply Forall_impl; [exact H|]. intros e ->. by split.
Qed.

(** X20. Every key a resolver uses on the cache or on the store is a
    non-empty host name without upper-case letters: the host header is
    lower-cased before its first use, and no other value is ever used as a
    key. *)
Theorem X20_keys_are_normalised d ev w :
  let normalised e := effectHost e <> "" /\ toLowerCase (effectHost e) = effectHost e in
  Forall normalised (newEffects w (Index.handler d ev w).2) /\
  Forall normalised (newEffects w (CachedMapper.handler d ev w).2) /\
  Forall normalised (newEffects w (DomainMapperEdge.handler d ev w).2) /\
  Forall normalised (newEffects w (WriteOnlyMapper.handler d ev w).2).
Proof.
  intros normalised. subst normalised.
  destruct (requestHost ev) as [[request host]|] eqn:Hv.
  2:{ rewrite (Index_handler_invalid d ev w Hv), (CM_handler_invalid d ev w Hv),
        (DME_handler_invalid d ev w Hv), (WO_handler_invalid d ev w Hv).
      simpl. rewrite newEffects_refl. by repeat split. }
  destruct (requestHost_normalised _ _ _ Hv) as [Hne Hl].
  split; [|split; [|split]].
  - apply (Forall_normalised host); [done..|]. exact (proj1 (Index_one_key d ev request host w Hv)).
  - apply (Forall_normalised host); [done..|]. exact (proj1 (CM_one_key d ev request host w Hv)).
  - destruct (includes host "amplifyapp.com") eqn:Ha.
    { rewrite (DME_handler_amplify d _ _ _ w Hv Ha). simpl.
      rewrite newEffects_refl. constructor. }
    rewrite (proj1 (DME_always_reads d _ _ _ w Hv Ha)). by repeat constructor.
  - destruct (includes host "amplifyapp.com") eqn:Ha.
    { rewrite (WO_handler_amplify d _ _ _ w Hv Ha). simpl.
      rewrite newEffects_refl. constructor. }
    rewrite (WO_handler_lookup d _ _ _ w Hv Ha). simpl.
    destruct (getItem d host); simpl; autorewrite with effects; by repeat constructor.
Qed.

(** ** Store failures in the drafts without a cache test *)

(** X21. In domain-mapper-edge and in the draft with the unread cache, a
    rejected store lookup is answered with the fixed 500 response of the
    [catch (dbError)] block; the run makes that one lookup and writes
    nothing, so in particular the failure is not cached. *)
Theorem X21_store_failure_without_cache d ev request host name w :
  requestHost ev = Some (request, host) ->
  includes host "amplifyapp.com" = false ->
  getItem d host = rejected name ->
  (DomainMapperEdge.handler d ev w).1 = Normal (Respond lookupFailed) /\
  newEffects w (DomainMapperEdge.handler d ev w).2 = [StoreRead host] /\
  cache (DomainMapperEdge.handler d ev w).2 = cache w /\
  (WriteOnlyMapper.handler d ev w).1 = Normal (Respond lookupFailed) /\
  newEffects w (WriteOnlyMapper.handler d ev w).2 = [StoreRead host] /\
  cache (WriteOnlyMapper.handler d ev w).2 = cache w.
Proof.
  intros Hv Ha Hrej.
  rewrite (DME_handler_lookup d _ _ _ w Hv Ha), (WO_handler_lookup d _ _ _ w Hv Ha).
  simpl. rewrite Hrej. simpl. rewrite !newEffects_1. done.
Qed.

Lemma X21_store_failure_without_cache_witness :
  (DomainMapperEdge.handler (storeDown 25)
     (sampleEvent (sampleRequest "gallery.example.com" "/dashboard"))
     (freshWorld 0)).1 = Normal (Respond lookupFailed).
Proof.
  refine (proj1 (X21_store_failure_without_cache (storeDown 25)
                   (sampleEvent (sampleRequest "gallery.example.com" "/dashboard"))
                   (sampleRequest "gallery.example.com" "/dashboard")
                   "gallery.example.com" "TimeoutError" (freshWorld 0) _ _ _));
    reflexivity.
Defined.

(** ** Domain-mapper-edge followed by the debug finalizer *)

Lemma firstValue_insert_eq (m : gmap string (list Header)) k h l :
  firstValue (<[k := h :: l]> m) k = Some (value h).
Proof. unfold firstValue. by rewrite lookup_insert_eq. Qed.

Lemma firstValue_insert_ne (m : gmap string (list Header)) k k' v :
  k <> k' -> firstValue (<[k := v]> m) k' = firstValue m k'.
Proof. intros H. unfold firstValue. by rewrite lookup_insert_ne. Qed.

Lemma firstValue_delete_ne (m : gmap string (list Header)) k k' :
  k <> k' -> firstValue (delete k m) k' = firstValue m k'.
Proof. intros H. unfold firstValue. by rewrite lookup_delete_ne. Qed.

(** X22. A request rewritten by domain-mapper-edge passes the debug draft
    of the finalizer with the fixed origin host as host header, without
    carrier and with its path kept.  If the rewritten path ends in [/] or
    [index.html], the [x-amz-meta-debug] header is replaced by the JSON
    object of the workspace id, the path as the client sent it and, if the
    client sent an [x-debug-transformed-uri] header, the first value of
    that header; on any other path [x-amz-meta-debug] is as the client
    sent it. *)
Theorem X22_debug_finalizer_after_mapper request wid :
  exists final,
    OriginRequestDebug.handler
      [ {| cf_request := Some (DomainMapperEdge.transform request wid) |} ]
      = Normal (Forward final) /\
    firstValue (headers final) "host" = Some newDomain /\
    headers final !! "x-custom-host" = None /\
    uri final = DomainMapperEdge.transformedUri (uri request) wid /\
    headers final !! "x-amz-meta-debug" =
      if endsWith (DomainMapperEdge.transformedUri (uri request) wid) "/" ||
         endsWith (DomainMapperEdge.transformedUri (uri request) wid) "index.html"
      then Some [ {| key := "X-Amz-Meta-Debug";
                     value :=
                       jsonObject
                         [ ("x-debug-workspace", Some wid);
                           ("x-debug-original-uri", Some (uri request));
                           ("x-debug-transformed-uri",
                            firstValue (headers request) "x-debug-transformed-uri") ] |} ]
      else headers request !! "x-amz-meta-debug".
Proof.
  unfold OriginRequestDebug.handler, tryCatch, DomainMapperEdge.transform. simpl.
  rewrite !lookup_insert_ne by done. rewrite lookup_insert_eq. simpl.
  destruct (endsWith (DomainMapperEdge.transformedUri (uri request) wid) "/" ||
            endsWith (DomainMapperEdge.transformedUri (uri request) wid) "index.html");
    simpl; eexists; (split; [reflexivity|]); simpl.
  - rewrite firstValue_insert_ne by done. rewrite firstValue_delete_ne by done.
    rewrite firstValue_insert_eq.
    rewrite lookup_insert_ne by done. rewrite lookup_delete_eq.
    rewrite lookup_insert_eq.
    repeat split. f_equal. f_equal. f_equal.
    unfold OriginRequestDebug.debugInfo.
    rewrite !firstValue_delete_ne by done.
    rewrite !(firstValue_insert_ne _ "host") by done.
    rewrite !(firstValue_insert_ne _ "x-debug-original-uri" "x-debug-workspace") by done.
    rewrite !(firstValue_insert_ne _ "x-debug-original-uri" "x-debug-transformed-uri")
      by done.
    rewrite !(firstValue_insert_ne _ "x-debug-workspace" "x-debug-transformed-uri")
      by done.
    rewrite !(firstValue_insert_ne _ "x-custom-host" "x-debug-transformed-uri") by done.
    by rewrite !firstValue_insert_eq.
  - rewrite firstValue_delete_ne by done. rewrite firstValue_insert_eq.
    rewrite lookup_delete_eq.
    rewrite lookup_delete_ne by done. rewrite !lookup_insert_ne by done. done.
Qed.

(** ** [src/index.mjs] against the cached draft *)

(** X23. For a host that does not end in [ve.ai] and a path that begins
    with [/], [src/index.mjs] and the cached draft behave alike: they leave
    the same cache, clock and trace, forward the same request, and where
    they answer themselves their responses differ in the body text only. *)
Theorem X23_index_and_cached_draft_agree d ev request host w :
  requestHost ev = Some (request, host) ->
  endsWith host "ve.ai" = false ->
  startsWith (uri request) "/" = true ->
  (Index.handler d ev w).2 = (CachedMapper.handler d ev w).2 /\
  exists o1 o2,
    (Index.handler d ev w).1 = Normal o1 /\
    (CachedMapper.handler d ev w).1 = Normal o2 /\
    sameUpToBody o1 o2.
Proof.
  intros Hv He Hs.
  assert (forall wid, Index.setOrigin request wid
                      = CachedMapper.transformRequest request wid) as Heq.
  { intros wid. unfold CachedMapper.transformRequest, Index.setOrigin.
    rewrite (requestUri_slash _ Hs).
    destruct (String.eqb_spec (uri request) "/") as [->|]; reflexivity. }
  destruct (includes host "amplifyapp.com") eqn:Ha.
  { rewrite (Index_handler_amplify d _ _ _ w Hv Ha), (CM_handler_amplify d _ _ _ w Hv Ha).
    split; [reflexivity|]. by eexists _, _. }
  rewrite (Index_handler_lookup d _ _ _ w Hv Ha He).
  destruct (stale_dec w host) as [Hst|(entry & Hc & Hlt)].
  - rewrite (Index_lookup_miss d _ _ Hst), (CM_handler_miss d _ _ _ w Hv Ha Hst). simpl.
    destruct (getItem d host) as [item|name].
    + destruct (activeWorkspace item) as [wid|]; simpl;
        (split; [reflexivity|]); eexists _, _; (split; [reflexivity|]);
        (split; [reflexivity|]); simpl; [apply Heq | done].
    + simpl. split; [reflexivity|]. by eexists _, _.
  - rewrite (Index_lookup_hit d _ _ _ Hc Hlt), (CM_handler_hit d _ _ _ w Hv _ Ha Hc Hlt).
    destruct (workspaceId entry) as [wid|]; [destruct (truthy wid)|]; simpl;
      (split; [reflexivity|]); eexists _, _; (split; [reflexivity|]);
      (split; [reflexivity|]); simpl; first [apply Heq | done].
Qed.

Lemma X23_index_and_cached_draft_agree_witness :
  let d := storeWith "gallery.example.com" (activeItem "workspace-1") 12 in
  let ev := sampleEvent (sampleRequest "gallery.example.com" "/dashboard") in
  (Index.handler d ev (freshWorld 0)).2 = (CachedMapper.handler d ev (freshWorld 0)).2.
Proof.
  intros d ev.
  refine (proj1 (X23_index_and_cached_draft_agree d ev
                   (sampleRequest "gallery.example.com" "/dashboard")
                   "gallery.example.com" (freshWorld 0) _ _ _)); reflexivity.
Defined.

(** ** Sample runs of the unconditional properties *)

Lemma X2_resolver_outcomes_witness :
  exists o,
    (DomainMapperEdge.handler (storeWith "gallery.example.com" (activeItem "workspace-1") 12)
       (sampleEvent (sampleRequest "Unknown.Example.com" "/dashboard")) (freshWorld 0)).1
      = Normal o /\
    forall r, o = Respond r ->
      ownResponse DomainMapperEdge.createNotFoundResponse processingFailed
        (sampleEvent (sampleRequest "Unknown.Example.com" "/dashboard")) r.
Proof.
  exact (proj1 (proj2 (proj2 (X2_resolver_outcomes
           (storeWith "gallery.example.com" (activeItem "workspace-1") 12)
           (sampleEvent (sampleRequest "Unknown.Example.com" "/dashboard"))
           (freshWorld 0))))).
Defined.


Lemma X17_transform_request_shape_witness :
  startsWith (uri (CachedMapper.transformRequest
                     (sampleRequest "gallery.example.com" "static/app.js") "workspace-1"))
    "/workspace-1/" = true.
Proof.
  exact (proj1 (X17_transform_request_shape
                  (sampleRequest "gallery.example.com" "static/app.js") "workspace-1")).
Defined.

Lemma X20_keys_are_normalised_witness :
  newEffects (freshWorld 0)
    (DomainMapperEdge.handler (storeWith smallEcole (activeItem "workspace-1") 12)
       (sampleEvent (sampleRequest capitalEcole "/dashboard")) (freshWorld 0)).2
    = [StoreRead smallEcole] /\
  Forall (fun e => effectHost e <> "" /\ toLowerCase (effectHost e) = effectHost e)
    (newEffects (freshWorld 0)
       (DomainMapperEdge.handler (storeWith smallEcole (activeItem "workspace-1") 12)
          (sampleEvent (sampleRequest capitalEcole "/dashboard")) (freshWorld 0)).2).
Proof.
  split; [reflexivity|].
  exact (proj1 (proj2 (proj2 (X20_keys_are_normalised
           (storeWith smallEcole (activeItem "workspace-1") 12)
           (sampleEvent (sampleRequest capitalEcole "/dashboard")) (freshWorld 0))))).
Defined.

Lemma X22_debug_finalizer_after_mapper_witness :
  let inbound :=
    set_headers (<["x-debug-transformed-uri" :=
                     [ {| key := "X-Debug-Transformed-Uri"; value := "/elsewhere" |} ]]>
                   (hostHeader "gallery.example.com"))
      (sampleRequest "gallery.example.com" "/albums/") in
  exists final,
    OriginRequestDebug.handler
      [ {| cf_request := Some (DomainMapperEdge.transform inbound "workspace-1") |} ]
      = Normal (Forward final) /\
    uri final = "/workspace-1/albums/" /\
    headers final !! "x-amz-meta-debug" =
      Some [ {| key := "X-Amz-Meta-Debug";
                value := jsonObject [ ("x-debug-workspace", Some "workspace-1");
                                      ("x-debug-original-uri", Some "/albums/");
                                      ("x-debug-transformed-uri", Some "/elsewhere") ] |} ].
Proof.
  intros inbound.
  destruct (X22_debug_finalizer_after_mapper inbound "workspace-1")
    as (final & H1 & _ & _ & H4 & H5).
  exists final. split; [exact H1|]. split; [exact H4 | exact H5].
Defined.
